(** * gbounty: template preparation and query extraction

    A shallow embedding of
      - internal/platform/cli/request.go   (package cli)
      - internal/match/extractor_req_query.go (package match)
    together with models of the Go library functions these files call
    (strings, errors, fmt.Errorf, bufio.Scanner, os).

    Go strings and byte slices are sequences of bytes: they are embedded as
    [string] (a list of 8-bit [ascii]).  Go's [int] is 64 bits wide; the
    template counter is embedded as [Z] with its wrap-around written out.
    A Go [error] that may be nil is an [option error]. *)

From Stdlib Require Import ZArith List String Ascii Bool Lia.
Import ListNotations.

Local Open Scope list_scope.
Local Open Scope string_scope.

(** Go's builtin [len] on a string. *)
Definition len (s : string) : Z := Z.of_nat (String.length s).

(** Go's [int]: 64-bit two's complement. *)
Definition int_wrap (z : Z) : Z := ((z + 2 ^ 63) mod 2 ^ 64 - 2 ^ 63)%Z.

(** [i++] on an [int]. *)
Definition int_incr (i : Z) : Z := int_wrap (i + 1)%Z.

(** A string from its bytes, for the bytes that have no printable form. *)
Fixpoint bytes (l : list nat) : string :=
  match l with
  | [] => ""
  | b :: l' => String (ascii_of_nat b) (bytes l')
  end.

Fixpoint rev_string (acc s : string) : string :=
  match s with
  | "" => acc
  | String c s' => rev_string (String c acc) s'
  end.

Definition reverse (s : string) : string := rev_string "" s.

Fixpoint drop (n : nat) (s : string) : string :=
  match n, s with
  | O, _ => s
  | S _, "" => ""
  | S n', String _ s' => drop n' s'
  end.

Fixpoint take (n : nat) (s : string) : string :=
  match n, s with
  | O, _ => ""
  | S _, "" => ""
  | S n', String c s' => String c (take n' s')
  end.

(** [s] repeated: [n] copies of the byte [c]. *)
Fixpoint replicate (n : nat) (c : ascii) : string :=
  match n with
  | O => ""
  | S n' => String c (replicate n' c)
  end.

(** ** Package errors, and the errors built by fmt.Errorf *)
Module errors.

(** The error values that occur: [errors.New] values, the errors
    [fmt.Errorf] builds for a format with one [%w] verb (the formatted
    message and the wrapped error), and [*os.PathError]. *)
Inductive error : Type :=
| errorString (s : string)
| wrapError (msg : string) (err : error)
| PathError (Op Path : string) (Err : error).

Definition New (s : string) : error := errorString s.

(** The [Error()] method. *)
Fixpoint Error (e : error) : string :=
  match e with
  | errorString s => s
  | wrapError msg _ => msg
  | PathError op path err => op ++ " " ++ path ++ ": " ++ Error err
  end.

Definition Unwrap (e : error) : option error :=
  match e with
  | errorString _ => None
  | wrapError _ err => Some err
  | PathError _ _ err => Some err
  end.

Fixpoint error_eqb (a b : error) : bool :=
  match a, b with
  | errorString s, errorString t => String.eqb s t
  | wrapError m e, wrapError n f => String.eqb m n && error_eqb e f
  | PathError o p e, PathError o' p' f =>
      String.eqb o o' && String.eqb p p' && error_eqb e f
  | _, _ => false
  end.

(** [errors.Is]: [target] occurs in the chain of [e].  Go compares the
    sentinel values by identity; the sentinels of this program have
    pairwise distinct messages, and are compared here by value. *)
Fixpoint Is (e target : error) : bool :=
  error_eqb e target ||
  match e with
  | errorString _ => false
  | wrapError _ err => Is err target
  | PathError _ _ err => Is err target
  end.

(** [errors.As(err, &pathErr)] for [pathErr *os.PathError]: the first
    path error of the chain, as (Op, Path, Err). *)
Fixpoint AsPathError (e : error) : option (string * string * error) :=
  match e with
  | errorString _ => None
  | wrapError _ err => AsPathError err
  | PathError op path err => Some (op, path, err)
  end.

End errors.
Export errors.

(** A Go result pair [(value, error)]. *)
Inductive result (A : Type) : Type :=
| Ok (a : A)
| Err (e : error).
Arguments Ok {A} a.
Arguments Err {A} e.

(** ** Package strings *)
Module strings.

Fixpoint HasPrefix (s prefix : string) : bool :=
  match prefix, s with
  | "", _ => true
  | String _ _, "" => false
  | String a prefix', String b s' => Ascii.eqb a b && HasPrefix s' prefix'
  end.

(** [strings.Index]: the byte offset of the first occurrence. *)
Fixpoint Index (s sep : string) : option nat :=
  if HasPrefix s sep then Some O
  else match s with
       | "" => None
       | String _ s' => option_map S (Index s' sep)
       end.

Definition Contains (s substr : string) : bool :=
  match Index s substr with Some _ => true | None => false end.

(** [strings.SplitN(s, sep, n)] for a non-empty [sep] and [n > 0]: at
    most [n] pieces, the last one the unsplit remainder.  [cuts] is
    [n - 1], the number of separators still to be consumed. *)
Fixpoint genSplit (cuts : nat) (s sep : string) : list string :=
  match cuts with
  | O => [s]
  | S cuts' =>
      match Index s sep with
      | None => [s]
      | Some m =>
          take m s :: genSplit cuts' (drop (m + String.length sep) s) sep
      end
  end.

Definition SplitN (s sep : string) (n : nat) : list string :=
  match n with
  | O => []
  | S cuts => genSplit cuts s sep
  end.

(** [strings.Join]. *)
Fixpoint Join (elems : list string) (sep : string) : string :=
  match elems with
  | [] => ""
  | [e] => e
  | e :: elems' => e ++ sep ++ Join elems' sep
  end.

(** The UTF-8 encodings of the runes for which [unicode.IsSpace] holds:
    tab, LF, VT, FF, CR, space, U+0085, U+00A0, U+1680, U+2000..U+200A,
    U+2028, U+2029, U+202F, U+205F, U+3000. *)
Definition spaceRunes : list string :=
  [ bytes [9]; bytes [10]; bytes [11]; bytes [12]; bytes [13]; " ";
    bytes [194; 133]; bytes [194; 160]; bytes [225; 154; 128];
    bytes [226; 128; 128]; bytes [226; 128; 129]; bytes [226; 128; 130];
    bytes [226; 128; 131]; bytes [226; 128; 132]; bytes [226; 128; 133];
    bytes [226; 128; 134]; bytes [226; 128; 135]; bytes [226; 128; 136];
    bytes [226; 128; 137]; bytes [226; 128; 138]; bytes [226; 128; 168];
    bytes [226; 128; 169]; bytes [226; 128; 175]; bytes [226; 129; 159];
    bytes [227; 128; 128] ].

(** One leading rune of [rs] removed, if [s] starts with one. *)
Fixpoint stripRune (rs : list string) (s : string) : option string :=
  match rs with
  | [] => None
  | r :: rs' =>
      if HasPrefix s r then Some (drop (String.length r) s)
      else stripRune rs' s
  end.

Fixpoint trimLeft (fuel : nat) (rs : list string) (s : string) : string :=
  match fuel with
  | O => s
  | S fuel' =>
      match stripRune rs s with
      | Some s' => trimLeft fuel' rs s'
      | None => s
      end
  end.

(** [strings.TrimSpace]: leading, then trailing, white space removed.  A
    rune is decoded from the front (resp. from the back) of the string
    exactly when its encoding is a prefix (resp. a suffix); every removal
    consumes a byte, so the length of the string is fuel enough. *)
Definition TrimSpace (s : string) : string :=
  let l := trimLeft (String.length s) spaceRunes s in
  reverse (trimLeft (String.length l) (map reverse spaceRunes) (reverse l)).

End strings.

(** ** Package bufio: a Scanner with the default split function and buffer *)
Module bufio.

Definition MaxScanTokenSize : Z := (64 * 1024)%Z.

Definition ErrTooLong : error := errors.New "bufio.Scanner: token too long".

Definition newline : ascii := ascii_of_nat 10.
Definition carriageReturn : ascii := ascii_of_nat 13.

(** The input cut at its newlines; a final piece without newline is a line
    of its own unless it is empty. *)
Fixpoint rawLines (data : string) : list string :=
  match data with
  | "" => []
  | String c data' =>
      if Ascii.eqb c newline then "" :: rawLines data'
      else match rawLines data' with
           | [] => [String c ""]
           | l :: ls => String c l :: ls
           end
  end.

(** [dropCR] of bufio/scan.go: one trailing carriage return removed. *)
Definition dropCR (l : string) : string :=
  match reverse l with
  | String c r => if Ascii.eqb c carriageReturn then reverse r else l
  | "" => l
  end.

(** The tokens that successive calls of [Scan] deliver, and the value of
    [Err()] once [Scan] has returned false.  A line, with its newline, has
    to fit the buffer, which grows to [MaxScanTokenSize] bytes and no
    further: at the first line of [MaxScanTokenSize] bytes or more the
    scanner stops with [ErrTooLong].  Otherwise it stops when the input is
    exhausted, with the reader's error ([None] for io.EOF). *)
Fixpoint scan (lines : list string) (rdErr : option error)
  : list string * option error :=
  match lines with
  | [] => ([], rdErr)
  | l :: lines' =>
      if (len l <? MaxScanTokenSize)%Z
      then let (tokens, e) := scan lines' rdErr in (dropCR l :: tokens, e)
      else ([], Some ErrTooLong)
  end.

(** [bufio.NewScanner(r)] run to its end over a reader [r] that yields
    [data] and then [rdErr]. *)
Definition ScanLines (data : string) (rdErr : option error)
  : list string * option error :=
  scan (rawLines data) rdErr.

End bufio.

(** ** Package os *)
Module os.

(** An open file: the bytes that can be read from it, and the error that
    ends the reading ([None] for io.EOF). *)
Record File : Type := mkFile { data : string; rdErr : option error }.

(** The file system: what [os.Open] returns for each path. *)
Definition FS : Type := string -> result File.

Definition Open (disk : FS) (name : string) : result File := disk name.

(** [os.ReadFile]: the whole contents, or the error of opening or of
    reading. *)
Definition ReadFile (disk : FS) (name : string) : result string :=
  match Open disk name with
  | Err e => Err e
  | Ok f =>
      match rdErr f with
      | Some e => Err e
      | None => Ok (data f)
      end
  end.

End os.

(** ** Package request *)
Module request.

(** Modelled from the spec: the declaration of [request.Request] is not
    part of the files embedded here.  Section 3 (Request Representation)
    says that it exposes a method, a target URL, headers as key/value
    pairs in emission order, and the body bytes. *)
Record Request : Type := mkRequest {
  Method : string;
  URL : string;
  Headers : list (string * string);
  Body : string
}.

(** The options [request.WithMethod], [request.WithData] and
    [request.WithHeader] hand to [request.WithOptions]. *)
Inductive Option : Type :=
| WithMethod (method : string)
| WithData (data : string)
| WithHeader (key value : string).

End request.

(** ** Package profile *)
Module profile.

(** The insertion point types this program names, and the others. *)
Inductive InsertionPointType : Type :=
| ParamURLName
| ParamURLValue
| OtherInsertionPoint (n : nat).

Definition eqb (a b : InsertionPointType) : bool :=
  match a, b with
  | ParamURLName, ParamURLName => true
  | ParamURLValue, ParamURLValue => true
  | OtherInsertionPoint n, OtherInsertionPoint m => Nat.eqb n m
  | _, _ => false
  end.

End profile.

(** ** Package entrypoint *)
Module entrypoint.

(** Modelled from the spec: the type [entrypoint.Query] and its methods
    [InsertionPointType()] and [Value()] are declared outside the files
    embedded here.  Section 3 (Insertion Point): a sub-kind tag (name or
    value) and the byte payload at that location. *)
Record Query : Type := mkQuery {
  InsertionPointType : profile.InsertionPointType;
  Value : string
}.

(** The interface [entrypoint.Entrypoint]: a query entrypoint, or an
    entrypoint of another concrete type, for which the type assertion
    [e.(entrypoint.Query)] fails. *)
Inductive Entrypoint : Type :=
| EQuery (q : Query)
| EOther (P : profile.InsertionPointType) (V : string).

(** The interface of the finders: [Find(request) []Entrypoint]. *)
Class Finder : Type := { Find : request.Request -> list Entrypoint }.

(** The query string of a request: what follows the first question mark
    of its URL. *)
Definition rawQuery (req : request.Request) : string :=
  match strings.Index (request.URL req) "?" with
  | Some m => drop (S m) (request.URL req)
  | None => ""
  end.

Definition paramEntrypoints (param : string) : list Entrypoint :=
  match param with
  | "" => []
  | _ =>
      match strings.Index param "=" with
      | Some m =>
          [ EQuery (mkQuery profile.ParamURLName (take m param));
            EQuery (mkQuery profile.ParamURLValue (drop (S m) param)) ]
      | None => [ EQuery (mkQuery profile.ParamURLName param) ]
      end
  end.

(** Modelled from the spec: [entrypoint.NewQueryFinder] is defined outside
    the files embedded here.  Section 4.5: the finder enumerates every
    query-string key and every query-string value of the request's URL in
    URL parameter order; each key yields one name insertion point and each
    value one value insertion point. *)
Definition findQuery (req : request.Request) : list Entrypoint :=
  let q := rawQuery req in
  flat_map paramEntrypoints (strings.genSplit (String.length q) q "&").

Definition SpecQueryFinder : Finder := {| Find := findQuery |}.

End entrypoint.

(** ** Package match: extractor_req_query.go *)
Module Match.
Section Extractor.

(** [entrypoint.NewQueryFinder()]. *)
Context (NewQueryFinder : entrypoint.Finder).

(** The body of the loop of [reqQueryBytes], over the entrypoints still
    to be visited; [b] is the buffer built so far. *)
Fixpoint appendMatching (ipt : profile.InsertionPointType)
    (es : list entrypoint.Entrypoint) (b : string) : string :=
  match es with
  | [] => b
  | e :: es' =>
      match e with
      | entrypoint.EQuery v =>
          if profile.eqb (entrypoint.InsertionPointType v) ipt
          then appendMatching ipt es' (b ++ entrypoint.Value v)
          else appendMatching ipt es' b
      | entrypoint.EOther _ _ => appendMatching ipt es' b
      end
  end.

Definition reqQueryBytes (req : request.Request)
    (ipt : profile.InsertionPointType) : string :=
  appendMatching ipt (entrypoint.Find req) "".

Definition reqQueryNameBytes (req : request.Request) : string :=
  reqQueryBytes req profile.ParamURLName.

Definition reqQueryValueBytes (req : request.Request) : string :=
  reqQueryBytes req profile.ParamURLValue.

End Extractor.
End Match.

(** ** Package scan (internal): templates and parameter splitting *)
Module scan.

Record ParamsCfg : Type := mkParamsCfg {
  Params : list string;
  Size : Z;
  Method : string;
  Encoding : string
}.

(** The zero value [scan.ParamsCfg{}]. *)
Definition zeroParamsCfg : ParamsCfg := mkParamsCfg [] 0%Z "" "".

(** Modelled from the spec: the declaration of [scan.Template] is not part
    of the files embedded here.  Section 3 (Scan Template): an integer
    index, an owned request, and optional raw response data. *)
Record Template : Type := mkTemplate {
  Idx : Z;
  Request : request.Request;
  Response : option string
}.

(** Modelled from the spec: [scan.NewTemplate] is defined outside the
    files embedded here; it builds the template of Section 3 from its
    index, request and response. *)
Definition NewTemplate (idx : Z) (req : request.Request)
    (resp : option string) : Template :=
  mkTemplate idx req resp.

(** Consecutive batches of [size] elements, the last one maybe shorter. *)
Fixpoint chunk (fuel size : nat) (l : list string) : list (list string) :=
  match fuel, l with
  | O, _ => []
  | _, [] => []
  | S fuel', _ => firstn size l :: chunk fuel' size (skipn size l)
  end.

(** A batch size of 0 (or less) means no splitting: one batch. *)
Definition batches (pc : ParamsCfg) : list (list string) :=
  if (Size pc <=? 0)%Z then [Params pc]
  else chunk (List.length (Params pc)) (Z.to_nat (Size pc)) (Params pc).

Section Alteration.

(** The request rebuilt to carry one batch of parameters, encoded per the
    configured encoding, with the configured method if set (done by the
    request-building collaborator). *)
Context (withParams : ParamsCfg -> list string -> request.Request
                      -> request.Request).

(** The raw request parser of the request package. *)
Context (ParseRequest : string -> result request.Request).

Fixpoint alterFrom (pc : ParamsCfg) (tpl : Template) (idx : Z)
    (bs : list (list string)) : list Template :=
  match bs with
  | [] => []
  | b :: bs' =>
      mkTemplate idx (withParams pc b (Request tpl)) (Response tpl)
      :: alterFrom pc tpl (int_incr idx) bs'
  end.

(** Modelled from the spec: the method [ParamsCfg.Alter] is defined
    outside the files embedded here.  Section 4.2: with no parameter names
    configured it returns [[template]]; otherwise it partitions the
    parameters into consecutive batches of the configured size and
    produces, for each batch and in batch order, a copy of the template
    whose request is rebuilt for that batch; the indices are reassigned
    sequentially, starting from the index of the template. *)
Definition Alter (pc : ParamsCfg) (tpl : Template) : list Template :=
  match Params pc with
  | [] => [tpl]
  | _ :: _ => alterFrom pc tpl (Idx tpl) (batches pc)
  end.

(** Modelled from the spec: [scan.TemplateFromRawBytes] is defined outside
    the files embedded here.  Section 4.3, raw mode: the payload is one
    textual request, parsed into one base template whose index the caller
    supplies, then altered; a parse failure is returned. *)
Definition TemplateFromRawBytes (idx : Z) (pCfg : ParamsCfg)
    (raw : string) : result (list Template) :=
  match ParseRequest raw with
  | Err e => Err e
  | Ok req => Ok (Alter pCfg (NewTemplate idx req None))
  end.

End Alteration.
End scan.

(** ** Package cli: request.go *)
Module cli.

Definition MultiValue : Type := list string.
Bind Scope list_scope with MultiValue.

(** The fields of [Config] that request.go reads. *)
Record Config : Type := mkConfig {
  ParamsFile : string;
  ParamsSplit : Z;
  ParamsMethod : string;
  ParamsEncoding : string;
  RequestsFile : string;
  RawRequests : MultiValue;
  UrlsFile : string;
  Method : string;
  Data : MultiValue;
  Headers : MultiValue;
  URLS : MultiValue;
  OutPath : string
}.

Definition withURLS (cfg : Config) (urls : MultiValue) : Config :=
  mkConfig (ParamsFile cfg) (ParamsSplit cfg) (ParamsMethod cfg)
    (ParamsEncoding cfg) (RequestsFile cfg) (RawRequests cfg)
    (UrlsFile cfg) (Method cfg) (Data cfg) (Headers cfg) urls
    (OutPath cfg).

Definition withParamsFile (cfg : Config) (path : string) : Config :=
  mkConfig path (ParamsSplit cfg) (ParamsMethod cfg)
    (ParamsEncoding cfg) (RequestsFile cfg) (RawRequests cfg)
    (UrlsFile cfg) (Method cfg) (Data cfg) (Headers cfg) (URLS cfg)
    (OutPath cfg).

Definition ErrProcessRequestFile : error :=
  errors.New "could not process request(s) file".

Definition ErrProcessUrlsFile : error :=
  errors.New "could not process url(s) file".

Definition ErrInvalidHeader : error := errors.New "invalid header".

(** [fmt.Errorf] for a format that starts with [%w]: [rest] is the
    formatted remainder of the message. *)
Definition Errorf (wrapped : error) (rest : string) : error :=
  wrapError (Error wrapped ++ rest) wrapped.

Inductive Level : Type := Info | Warn | Error_.

(** What a run acts on: the templates the [scan.FileSystem] has stored, in
    the order of the successful calls of [StoreTemplate], and the lines
    handed to the logger. *)
Record World : Type := mkWorld {
  stored : list scan.Template;
  logged : list (Level * string)
}.

(** The collaborators of request.go. *)
Class Env : Type := {
  (** the files [os.Open] and [os.ReadFile] see *)
  disk : os.FS;
  (** [fs.StoreTemplate] of the [scan.FileSystem] in use: the error it
      returns for a template, given the templates stored before *)
  storeFails : list scan.Template -> scan.Template -> option error;
  (** [url.Validate(&u)]: the string [u] holds afterwards, and the error *)
  url_Validate : string -> string * option error;
  (** [request.WithOptions(url, options...)] *)
  request_WithOptions : string -> list request.Option -> request.Request;
  (** [MultiValue.String()] *)
  MultiValue_String : MultiValue -> string;
  (** a [MultiValue] formatted with the verb [%s] *)
  MultiValue_Format : MultiValue -> string;
  strings_ToUpper : string -> string;
  strings_ToLower : string -> string;
  (** [scan.TemplatesFromZipBytes] *)
  scan_TemplatesFromZipBytes :
    scan.ParamsCfg -> string -> result (list scan.Template);
  (** the raw request parser and the request rebuilder that
      [scan.TemplateFromRawBytes] and [ParamsCfg.Alter] rely on *)
  request_ParseRequest : string -> result request.Request;
  request_withParams :
    scan.ParamsCfg -> list string -> request.Request -> request.Request
}.

(** Computations that act on the world. *)
Definition M (A : Type) : Type := World -> A * World.

Definition ret {A : Type} (a : A) : M A := fun w => (a, w).

Definition bind {A B : Type} (c : M A) (k : A -> M B) : M B :=
  fun w => let (a, w') := c w in k a w'.

Declare Scope go_scope.
Delimit Scope go_scope with go.
Notation "x <- c ;; k" := (bind c (fun x => k))
  (at level 61, c at next level, right associativity) : go_scope.
Notation "c ;; k" := (bind c (fun _ => k))
  (at level 61, right associativity) : go_scope.
Local Open Scope go_scope.

(** [logger.For(ctx)]: one line, already formatted. *)
Definition log (lvl : Level) (msg : string) : M unit :=
  fun w => (tt, mkWorld (stored w) (logged w ++ [(lvl, msg)])).

Section Pipeline.

Context {env : Env}.

Definition Alter : scan.ParamsCfg -> scan.Template -> list scan.Template :=
  scan.Alter request_withParams.

Definition TemplateFromRawBytes
  : Z -> scan.ParamsCfg -> string -> result (list scan.Template) :=
  scan.TemplateFromRawBytes request_withParams request_ParseRequest.

(** [fs.StoreTemplate(ctx, template)]. *)
Definition StoreTemplate (tpl : scan.Template) : M (option error) :=
  fun w =>
    match storeFails (stored w) tpl with
    | Some e => (Some e, w)
    | None => (None, mkWorld (stored w ++ [tpl]) (logged w))
    end.

Definition readParamsFile (pathToFile : string)
  : M (result (list string)) :=
  log Info ("Reading params file from: " ++ pathToFile) ;;
  match os.ReadFile disk pathToFile with
  | Err err => ret (Err err)
  | Ok contents =>
      (* the scanner's error is not looked at *)
      let (tokens, _) := bufio.ScanLines contents None in
      ret (Ok (map strings.TrimSpace tokens))
  end.

(** The loop of [createFromRequestsFile]. *)
Fixpoint storeFromRequestsFile (path : string)
    (templates : list scan.Template) : M (option error) :=
  match templates with
  | [] => ret None
  | template :: templates' =>
      err <- StoreTemplate template ;;
      match err with
      | Some e =>
          ret (Some (Errorf ErrProcessRequestFile
                       ("(" ++ path ++ ") " ++ Error e)))
      | None => storeFromRequestsFile path templates'
      end
  end.

Definition createFromRequestsFile (path : string) (pCfg : scan.ParamsCfg)
  : M (option error) :=
  match os.ReadFile disk path with
  | Err err =>
      ret (Some (Errorf ErrProcessRequestFile
                   ("(" ++ path ++ "): " ++ Error err)))
  | Ok file =>
      match scan_TemplatesFromZipBytes pCfg file with
      | Err err =>
          ret (Some (Errorf ErrProcessRequestFile
                       ("(" ++ path ++ "): " ++ Error err)))
      | Ok templates => storeFromRequestsFile path templates
      end
  end.

(** The inner loop of [createFromRawRequestFiles]: the error, if any, and
    the value of [tplIdx] afterwards. *)
Fixpoint storeFromRawRequest (path : string)
    (templates : list scan.Template) (tplIdx : Z) : M (option error * Z) :=
  match templates with
  | [] => ret (None, tplIdx)
  | tpl :: templates' =>
      let tplIdx := int_incr tplIdx in
      err <- StoreTemplate tpl ;;
      match err with
      | Some e =>
          ret (Some (Errorf ErrProcessRequestFile
                       ("(" ++ path ++ "): " ++ Error e)), tplIdx)
      | None => storeFromRawRequest path templates' tplIdx
      end
  end.

(** The outer loop of [createFromRawRequestFiles]. *)
Fixpoint rawRequestFilesFrom (paths : MultiValue) (pCfg : scan.ParamsCfg)
    (tplIdx : Z) : M (option error) :=
  match paths with
  | [] => ret None
  | path :: paths' =>
      match os.ReadFile disk path with
      | Err err =>
          ret (Some (Errorf ErrProcessRequestFile
                       ("(" ++ path ++ "): " ++ Error err)))
      | Ok raw =>
          match TemplateFromRawBytes tplIdx pCfg raw with
          | Err err =>
              ret (Some (Errorf ErrProcessRequestFile
                           ("(" ++ path ++ "): " ++ Error err)))
          | Ok templates =>
              r <- storeFromRawRequest path templates tplIdx ;;
              match r with
              | (Some e, _) => ret (Some e)
              | (None, tplIdx') => rawRequestFilesFrom paths' pCfg tplIdx'
              end
          end
      end
  end.

Definition createFromRawRequestFiles (paths : MultiValue)
    (pCfg : scan.ParamsCfg) : M (option error) :=
  rawRequestFilesFrom paths pCfg 0%Z.

(** The loop over [cfg.Headers] in [createFromConfig]. *)
Fixpoint headerOptions (headers : MultiValue)
    (options : list request.Option) : result (list request.Option) :=
  match headers with
  | [] => Ok options
  | header :: headers' =>
      if negb (List.length (strings.SplitN header ":" 2) =? 2)%nat
      then Err (Errorf ErrInvalidHeader (": " ++ header))
      else
        let key :=
          strings.TrimSpace (nth 0 (strings.SplitN header ":" 2) "") in
        let value :=
          strings.TrimSpace (nth 1 (strings.SplitN header ":" 2) "") in
        headerOptions headers' (options ++ [request.WithHeader key value])
  end.

(** The inner loop of [createFromConfig]. *)
Fixpoint storeFromConfig (cfgURL : string)
    (templates : list scan.Template) (tplIdx : Z) : M (option error * Z) :=
  match templates with
  | [] => ret (None, tplIdx)
  | tpl :: templates' =>
      let tplIdx := int_incr tplIdx in
      err <- StoreTemplate tpl ;;
      match err with
      | Some e =>
          log Error_ ("Error while building scan template: " ++ Error e) ;;
          ret (Some (Errorf ErrProcessRequestFile
                       ("(" ++ cfgURL ++ "): " ++ Error e)), tplIdx)
      | None => storeFromConfig cfgURL templates' tplIdx
      end
  end.

(** The loop over [cfg.URLS] in [createFromConfig]. *)
Fixpoint configURLSFrom (urls : MultiValue)
    (options : list request.Option) (pCfg : scan.ParamsCfg) (tplIdx : Z)
  : M (option error) :=
  match urls with
  | [] => ret None
  | cfgURL :: urls' =>
      let (cfgURL, err) := url_Validate cfgURL in
      match err with
      | Some e =>
          log Error_ ("Error while validating url (" ++ cfgURL ++ "): "
                      ++ Error e) ;;
          ret (Some e)
      | None =>
          let reqWithOpts := request_WithOptions cfgURL options in
          let templates :=
            Alter pCfg (scan.NewTemplate tplIdx reqWithOpts None) in
          r <- storeFromConfig cfgURL templates tplIdx ;;
          match r with
          | (Some e, _) => ret (Some e)
          | (None, tplIdx') => configURLSFrom urls' options pCfg tplIdx'
          end
      end
  end.

(** The options [createFromConfig] has collected before it reaches the
    headers, with the lines it logs on the way. *)
Definition methodAndDataOptions (cfg : Config) : M (list request.Option) :=
  options <-
    (if (0 <? len (Method cfg))%Z
     then log Info ("HTTP method inherited from config: " ++ Method cfg) ;;
          ret [request.WithMethod (Method cfg)]
     else ret []) ;;
  if (0 <? List.length (Data cfg))%nat
  then log Info ("Payload data inherited from config: "
                 ++ MultiValue_String (Data cfg)) ;;
       ret (options ++ [request.WithData (strings.Join (Data cfg) "&")])%list
  else ret options.

Definition createFromConfig (cfg : Config) (pCfg : scan.ParamsCfg)
  : M (option error) :=
  options <- methodAndDataOptions cfg ;;
  (if (0 <? List.length (Headers cfg))%nat
   then log Info ("HTTP headers inherited from config: "
                  ++ MultiValue_String (Headers cfg))
   else ret tt) ;;
  match headerOptions (Headers cfg) options with
  | Err e => ret (Some e)
  | Ok options => configURLSFrom (URLS cfg) options pCfg 0%Z
  end.

(** The loop of [updateConfigWithURLS] over the lines of the file. *)
Fixpoint appendValidURLS (lines : list string) (cfg : Config) : M Config :=
  match lines with
  | [] => ret cfg
  | line :: lines' =>
      let (line, err) := url_Validate line in
      match err with
      | Some e =>
          log Warn ("Skipping url(s) file (" ++ UrlsFile cfg ++ ") line ("
                    ++ line ++ ") - not a valid url: " ++ Error e) ;;
          appendValidURLS lines' cfg
      | None => appendValidURLS lines' (withURLS cfg (URLS cfg ++ [line])%list)
      end
  end.

(** [updateConfigWithURLS(ctx, &cfg)]: the error, and the configuration
    [cfg] points to afterwards. *)
Definition updateConfigWithURLS (cfg : Config) : M (option error * Config) :=
  match os.Open disk (UrlsFile cfg) with
  | Err err =>
      match AsPathError err with
      | Some (_, _, pathErr_Err) =>
          ret (Some (Errorf ErrProcessUrlsFile
                       ("(" ++ UrlsFile cfg ++ "): " ++ Error pathErr_Err)),
               cfg)
      | None =>
          ret (Some (Errorf ErrProcessUrlsFile
                       ("(" ++ OutPath cfg ++ "): " ++ Error err)), cfg)
      end
  | Ok file =>
      let (lines, scanErr) :=
        bufio.ScanLines (os.data file) (os.rdErr file) in
      cfg' <- appendValidURLS lines cfg ;;
      ret (scanErr, cfg')
  end.

Definition createTemplates (cfg : Config) (pCfg : scan.ParamsCfg)
  : M (option error) :=
  log Info "Preparing templates for scan" ;;
  if (0 <? len (RequestsFile cfg))%Z then
    log Info ("Scan templates from requests file: " ++ RequestsFile cfg) ;;
    createFromRequestsFile (RequestsFile cfg) pCfg
  else if (0 <? List.length (RawRequests cfg))%nat then
    log Info ("Scan templates from raw requests: "
              ++ MultiValue_Format (RawRequests cfg)) ;;
    createFromRawRequestFiles (RawRequests cfg) pCfg
  else if (0 <? len (UrlsFile cfg))%Z then
    log Info "Updating config with urls file" ;;
    r <- updateConfigWithURLS cfg ;;
    match r with
    | (Some err, _) =>
        log Error_ ("Error while updating config with urls file: "
                    ++ Error err) ;;
        ret (Some err)
    | (None, cfg') =>
        log Info "Scan templates from config" ;;
        createFromConfig cfg' pCfg
    end
  else
    log Info "Scan templates from config" ;;
    createFromConfig cfg pCfg.

Definition PrepareTemplates (cfg : Config) : M (option error) :=
  if (0 <? len (ParamsFile cfg))%Z then
    r <- readParamsFile (ParamsFile cfg) ;;
    match r with
    | Ok params =>
        createTemplates cfg
          (scan.mkParamsCfg params (ParamsSplit cfg)
             (strings_ToUpper (ParamsMethod cfg))
             (strings_ToLower (ParamsEncoding cfg)))
    | Err err =>
        log Error_ ("Error while reading params file: " ++ Error err) ;;
        createTemplates cfg scan.zeroParamsCfg
    end
  else createTemplates cfg scan.zeroParamsCfg.

End Pipeline.
End cli.

(** * Vocabulary of the statements *)

(** [Contains] against a plain reading: some byte of [s] is the colon. *)
Fixpoint hasByte (c : ascii) (s : string) : bool :=
  match s with
  | "" => false
  | String x s' => Ascii.eqb x c || hasByte c s'
  end.

(** The payloads of the query entrypoints of sub-kind [ipt], in order. *)
Definition matchingPayloads (ipt : profile.InsertionPointType)
    (es : list entrypoint.Entrypoint) : list string :=
  flat_map
    (fun e =>
       match e with
       | entrypoint.EQuery v =>
           if profile.eqb (entrypoint.InsertionPointType v) ipt then [entrypoint.Value v] else []
       | entrypoint.EOther _ _ => []
       end) es.

Definition concatBytes (parts : list string) : string :=
  fold_right String.append "" parts.

Definition sampleRequest : request.Request :=
  request.mkRequest "GET" "http://example.com/search?a=1&b=2&a=3" [] "".

(** [tplIdx] after [n] increments. *)
Fixpoint advance (tplIdx : Z) (n : nat) : Z :=
  match n with
  | O => tplIdx
  | S n' => advance (int_incr tplIdx) n'
  end.

(** The [n] successive values of a counter that starts at [start]. *)
Fixpoint indicesFrom (start : Z) (n : nat) : list Z :=
  match n with
  | O => []
  | S n' => start :: indicesFrom (int_incr start) n'
  end.

(** The world with more lines logged. *)
Definition addLogs (w : cli.World) (ls : list (cli.Level * string))
  : cli.World :=
  cli.mkWorld (cli.stored w) (cli.logged w ++ ls).

Definition emptyWorld : cli.World := cli.mkWorld [] [].

Section PipelineVocabulary.

Context {env : cli.Env}.
Import cli.

Definition validURL (u : string) : bool :=
  match snd (url_Validate u) with
  | None => true
  | Some _ => false
  end.

(** The lines of a URLs file that pass validation, as validation leaves
    them. *)
Definition survivors (lines : list string) : list string :=
  map (fun l => fst (url_Validate l)) (filter validURL lines).

Definition skipWarning (urlsFile line : string) : Level * string :=
  (Warn,
   "Skipping url(s) file (" ++ urlsFile ++ ") line ("
   ++ fst (url_Validate line) ++ ") - not a valid url: "
   ++ match snd (url_Validate line) with
      | Some e => Error e
      | None => ""
      end).

(** One warning per line that fails validation. *)
Definition skippedWarnings (urlsFile : string) (lines : list string)
  : list (Level * string) :=
  map (skipWarning urlsFile) (filter (fun l => negb (validURL l)) lines).

(** The options of the inline configuration other than the headers. *)
Definition baseOptions (cfg : Config) : list request.Option :=
  (if (0 <? len (Method cfg))%Z then [request.WithMethod (Method cfg)]
   else [])
  ++ (if (0 <? List.length (Data cfg))%nat
      then [request.WithData (strings.Join (Data cfg) "&")]
      else []).

Definition headerOption (header : string) : request.Option :=
  request.WithHeader
    (strings.TrimSpace (nth 0 (strings.SplitN header ":" 2) ""))
    (strings.TrimSpace (nth 1 (strings.SplitN header ":" 2) "")).

(** The options of an inline configuration whose headers are well formed. *)
Definition configOptions (cfg : Config) : list request.Option :=
  baseOptions cfg ++ map headerOption (Headers cfg).

(** The lines [createFromConfig] logs for the method and the data. *)
Definition optionLogs (cfg : Config) : list (Level * string) :=
  (if (0 <? len (Method cfg))%Z
   then [(Info, "HTTP method inherited from config: " ++ Method cfg)]
   else [])
  ++ (if (0 <? List.length (Data cfg))%nat
      then [(Info, "Payload data inherited from config: "
                   ++ MultiValue_String (Data cfg))]
      else []).

(** The lines [createFromConfig] logs before it looks at the URLs. *)
Definition configLogs (cfg : Config) : list (Level * string) :=
  optionLogs cfg
  ++ (if (0 <? List.length (Headers cfg))%nat
      then [(Info, "HTTP headers inherited from config: "
                   ++ MultiValue_String (Headers cfg))]
      else []).

(** The templates of the inline-config path for a list of valid URLs, the
    counter starting at [tplIdx]. *)
Fixpoint templatesOfURLS (urls : MultiValue) (options : list request.Option)
    (pCfg : scan.ParamsCfg) (tplIdx : Z) : list scan.Template :=
  match urls with
  | [] => []
  | u :: urls' =>
      let templates :=
        Alter pCfg
          (scan.NewTemplate tplIdx
             (request_WithOptions (fst (url_Validate u)) options) None) in
      templates
      ++ templatesOfURLS urls' options pCfg
           (advance tplIdx (List.length templates))
  end.

End PipelineVocabulary.

(** ** Sample collaborators, for the concrete runs *)

Definition sampleValidate (u : string) : string * option error :=
  if strings.HasPrefix u "http://" || strings.HasPrefix u "https://"
  then (u, None)
  else (u, Some (errors.New "invalid url")).

Definition sampleWithOptions (u : string) (options : list request.Option)
  : request.Request :=
  request.mkRequest "GET" u [] "".

Definition sampleWithParams (pc : scan.ParamsCfg) (batch : list string)
    (req : request.Request) : request.Request :=
  request.mkRequest (request.Method req) (request.URL req)
    (request.Headers req) (strings.Join batch "&").

Definition sampleParse (raw : string) : result request.Request :=
  match raw with
  | "" => Err (errors.New "empty request")
  | _ => Ok (request.mkRequest "GET" raw [] "")
  end.

(** Collaborators over a given disk; the store never fails. *)
Definition sampleEnv (d : os.FS) : cli.Env :=
  {| cli.disk := d;
     cli.storeFails := fun _ _ => None;
     cli.url_Validate := sampleValidate;
     cli.request_WithOptions := sampleWithOptions;
     cli.MultiValue_String := fun l => strings.Join l ",";
     cli.MultiValue_Format := fun l => strings.Join l ",";
     cli.strings_ToUpper := fun s => s;
     cli.strings_ToLower := fun s => s;
     cli.scan_TemplatesFromZipBytes := fun _ _ => Ok [];
     cli.request_ParseRequest := sampleParse;
     cli.request_withParams := sampleWithParams |}.

Definition ENOENT : error := errors.New "no such file or directory".
Definition EISDIR : error := errors.New "is a directory".

Definition noFile (name : string) : result os.File :=
  Err (PathError "open" name ENOENT).

(** A configuration with nothing set but the URL list. *)
Definition inlineConfig (urls : cli.MultiValue) : cli.Config :=
  cli.mkConfig "" 0%Z "" "" "" [] "" "" [] [] urls "".

(** A header override without a colon, and one URL. *)
Definition invalidHeaderConfig : cli.Config :=
  cli.mkConfig "" 0%Z "" "" "" [] "" "" [] ["Accept: */*"; "X-Test"]
    ["http://a.example"] "".

(** Two valid URLs around an invalid one. *)
Definition invalidURLConfig : cli.Config :=
  inlineConfig ["http://a.example"; "ftp://b.example"; "http://c.example"].

(** Three parameters, in batches of two. *)
Definition sampleParamsCfg : scan.ParamsCfg :=
  scan.mkParamsCfg ["id"; "q"; "page"] 2%Z "POST" "url".

(** Two raw request files. *)
Definition rawDisk (name : string) : result os.File :=
  if String.eqb name "first.txt" then Ok (os.mkFile "GET /a HTTP/1.1" None)
  else if String.eqb name "second.txt"
       then Ok (os.mkFile "GET /b HTTP/1.1" None)
       else noFile name.

Definition nl : string := String bufio.newline "".

(** A disk with the one file [name]. *)
Definition oneFile (name : string) (f : os.File) : os.FS :=
  fun n => if String.eqb n name then Ok f else noFile n.

(** A URLs file with a valid and an invalid line. *)
Definition urlsFile : os.File :=
  os.mkFile ("http://a.example" ++ nl ++ "not a url" ++ nl) None.

(** A line of 64 KiB. *)
Definition longLine : string := replicate (Z.to_nat 65536) "a".

(** A URLs file with [line] between two valid lines. *)
Definition urlsFileAround (line : string) : os.File :=
  os.mkFile
    ("http://a.example"
     ++ String bufio.newline
          (line ++ String bufio.newline ("http://b.example" ++ nl)))
    None.


(** A parameter file with [line] before the line "id". *)
Definition paramsFileStarting (line : string) : os.File :=
  os.mkFile (line ++ String bufio.newline ("id" ++ nl)) None.

(** A parameter file whose first line is 64 KiB long. *)
Definition longLineParamsFile : os.File := paramsFileStarting longLine.

(** What [os.Open] gives for a directory: it opens, and reading fails. *)
Definition directory (name : string) : os.File :=
  os.mkFile "" (Some (PathError "read" name EISDIR)).

(** A configuration with a URLs file and one inline URL. *)
Definition urlsFileConfig (path : string) : cli.Config :=
  cli.mkConfig "" 0%Z "" "" "" [] path "" [] [] ["http://z.example"] "out".

(** A configuration with a parameter file and one inline URL. *)
Definition paramsFileConfig (path : string) : cli.Config :=
  cli.mkConfig path 2%Z "post" "URL" "" [] "" "" [] [] ["http://z.example"]
    "out".

(** A configuration with every source set. *)
Definition everySourceConfig : cli.Config :=
  cli.mkConfig "" 0%Z "" "" "requests.zip" ["first.txt"] "urls.txt" "" [] []
    ["http://z.example"] "out".

(** A configuration with raw-request files and a URLs file. *)
Definition rawAndUrlsConfig : cli.Config :=
  cli.mkConfig "" 0%Z "" "" "" ["first.txt"] "urls.txt" "" [] []
    ["http://z.example"] "out".


(** A computation whose result and stored templates do not depend on what
    has been logged. *)
Definition oblivious {A : Type} (c : cli.M A) : Prop :=
  forall w1 w2,
    cli.stored w1 = cli.stored w2 ->
    fst (c w1) = fst (c w2)
    /\ cli.stored (snd (c w1)) = cli.stored (snd (c w2)).

(** The runes of a set are not empty, and only their first byte can be a
    carriage return. *)
Definition runesOK (rs : list string) : Prop :=
  Forall (fun r => r <> ""
                   /\ hasByte bufio.carriageReturn (drop 1 r) = false) rs.


(** A parameter file with CRLF line ends, a blank line, a repeated name and
    no newline at its end. *)
Definition crlfParamsFile : os.File :=
  os.mkFile
    (" id " ++ bytes [13; 10] ++ bytes [13; 10] ++ "q" ++ bytes [9; 13; 10]
     ++ "id")
    None.

(** Three templates, as a bundle parser may return them. *)
Definition sampleTemplates : list scan.Template :=
  [ scan.NewTemplate 0%Z (request.mkRequest "GET" "http://a.example" [] "")
      None;
    scan.NewTemplate 1%Z (request.mkRequest "GET" "http://b.example" [] "")
      None;
    scan.NewTemplate 2%Z (request.mkRequest "GET" "http://c.example" [] "")
      None ].

(** Collaborators whose bundle parser returns [sampleTemplates] and whose
    store is full after [room] templates. *)
Definition bundleEnv (d : os.FS) (room : nat) : cli.Env :=
  {| cli.disk := d;
     cli.storeFails :=
       fun h _ =>
         if (List.length h <? room)%nat then None
         else Some (errors.New "disk full");
     cli.url_Validate := sampleValidate;
     cli.request_WithOptions := sampleWithOptions;
     cli.MultiValue_String := fun l => strings.Join l ",";
     cli.MultiValue_Format := fun l => strings.Join l ",";
     cli.strings_ToUpper := fun s => s;
     cli.strings_ToLower := fun s => s;
     cli.scan_TemplatesFromZipBytes := fun _ _ => Ok sampleTemplates;
     cli.request_ParseRequest := sampleParse;
     cli.request_withParams := sampleWithParams |}.

Definition bundleFile : os.File := os.mkFile "PK" None.

(** Two raw request files with a missing one between them. *)
Definition rawPathsWithMissing : cli.MultiValue :=
  ["first.txt"; "missing.txt"; "second.txt"].

(** A finder that returns a fixed list of entrypoints. *)
Definition constFinder (es : list entrypoint.Entrypoint) : entrypoint.Finder :=
  {| entrypoint.Find := fun _ => es |}.

Definition nameA : entrypoint.Entrypoint :=
  entrypoint.EQuery (entrypoint.mkQuery profile.ParamURLName "a").

Definition value1 : entrypoint.Entrypoint :=
  entrypoint.EQuery (entrypoint.mkQuery profile.ParamURLValue "1").

Definition otherB : entrypoint.Entrypoint :=
  entrypoint.EOther profile.ParamURLName "b".
(** * Properties *)

Example TrimSpace_ex :
  strings.TrimSpace ("  a b" ++ bytes [9; 194; 160; 13]) = "a b".
Proof. reflexivity. Qed.

Example TrimSpace_unicode :
  strings.TrimSpace
    (bytes [226; 128; 128] ++ bytes [195; 169] ++ " x" ++ bytes [227; 128; 128; 12])
  = bytes [195; 169] ++ " x"
  /\ strings.TrimSpace (" " ++ bytes [9; 13; 194; 133]) = ""
  /\ strings.TrimSpace (bytes [194] ++ " a " ++ bytes [128]) 
     = bytes [194] ++ " a " ++ bytes [128].
Proof. repeat split. Qed.

Example SplitN_ex : strings.SplitN "K: v:w" ":" 2 = ["K"; " v:w"].
Proof. reflexivity. Qed.

Example SplitN_ex2 : strings.SplitN "X-Test" ":" 2 = ["X-Test"].
Proof. reflexivity. Qed.

Example ScanLines_ex :
  bufio.ScanLines ("a" ++ bytes [13; 10; 10] ++ " b") None
  = (["a"; ""; " b"], None).
Proof. reflexivity. Qed.

(** ** Strings *)

Lemma append_empty_r (s : string) : s ++ "" = s.
Proof. induction s as [|c s IH]; simpl; [reflexivity | now rewrite IH]. Qed.

Lemma append_assoc (a b c : string) : (a ++ b) ++ c = a ++ (b ++ c).
Proof. induction a as [|x a IH]; simpl; [reflexivity | now rewrite IH]. Qed.

Lemma len_pos_iff (s : string) : (0 <? len s)%Z = true <-> s <> "".
Proof.
  unfold len. destruct s as [|c s]; simpl.
  - split; [discriminate | congruence].
  - split; [discriminate | intros _; apply Z.ltb_lt; lia].
Qed.

Lemma len_zero_iff (s : string) : (0 <? len s)%Z = false <-> s = "".
Proof.
  unfold len. destruct s as [|c s]; simpl.
  - split; reflexivity.
  - split; [|discriminate]. intros H. apply Z.ltb_ge in H. lia.
Qed.

Lemma length_pos_iff {A : Type} (l : list A) :
  (0 <? List.length l)%nat = true <-> l <> [].
Proof.
  destruct l; simpl; split; try discriminate; try reflexivity.
  intros H. now elim H.
Qed.

(** A header splits into two parts exactly when it contains a colon. *)
Lemma SplitN_colon_length (header : string) :
  (List.length (strings.SplitN header ":" 2) =? 2)%nat
  = strings.Contains header ":".
Proof.
  unfold strings.SplitN, strings.Contains. simpl.
  destruct (strings.Index header ":"); reflexivity.
Qed.


Lemma Contains_colon_hasByte (s : string) :
  strings.Contains s ":" = hasByte ":"%char s.
Proof.
  unfold strings.Contains.
  induction s as [|x s IH]; [reflexivity|].
  cbn [strings.Index strings.HasPrefix hasByte].
  rewrite (Ascii.eqb_sym ":" x).
  destruct (Ascii.eqb x ":"); cbn [andb orb].
  - destruct s; reflexivity.
  - rewrite <- IH. destruct (strings.Index s ":"); reflexivity.
Qed.

(** ** Query extraction (package match) *)

Section ExtractorFacts.

Import entrypoint.


Lemma appendMatching_concat (ipt : profile.InsertionPointType)
    (es : list Entrypoint) (b : string) :
  Match.appendMatching ipt es b
  = b ++ concatBytes (matchingPayloads ipt es).
Proof.
  revert b. induction es as [|e es IH]; intros b; simpl.
  - now rewrite append_empty_r.
  - destruct e as [v|P V]; simpl; [|apply IH].
    destruct (profile.eqb (InsertionPointType v) ipt); simpl.
    + rewrite IH. apply append_assoc.
    + apply IH.
Qed.

(** C6: for every finder and request, the extractor for a sub-kind returns
    the concatenation, in finder order, of the payloads of exactly the query
    entrypoints of that sub-kind, and the empty buffer when there is none;
    the name and value extractors are the instances for the two sub-kinds.
    With the finder of Section 4.5, a request whose query string is
    a=1&b=2&a=3 gives "aba" for the names and "123" for the values. *)
Theorem reqQueryBytes_extracts :
  (forall (F : Finder) req ipt,
      Match.reqQueryBytes F req ipt
      = concatBytes (matchingPayloads ipt (Find req)))
  /\ (forall (F : Finder) req,
         Match.reqQueryNameBytes F req
         = concatBytes (matchingPayloads profile.ParamURLName (Find req))
         /\ Match.reqQueryValueBytes F req
            = concatBytes (matchingPayloads profile.ParamURLValue (Find req)))
  /\ (forall (F : Finder) req ipt,
         matchingPayloads ipt (Find req) = [] ->
         Match.reqQueryBytes F req ipt = "")
  /\ (forall req,
         rawQuery req = "a=1&b=2&a=3" ->
         matchingPayloads profile.ParamURLName (findQuery req)
         = ["a"; "b"; "a"]
         /\ matchingPayloads profile.ParamURLValue (findQuery req)
            = ["1"; "2"; "3"]
         /\ Match.reqQueryNameBytes SpecQueryFinder req = "aba"
         /\ Match.reqQueryValueBytes SpecQueryFinder req = "123").
Proof.
  assert (G : forall (F : Finder) req ipt,
             Match.reqQueryBytes F req ipt
             = concatBytes (matchingPayloads ipt (Find req))).
  { intros F req ipt. unfold Match.reqQueryBytes.
    now rewrite appendMatching_concat. }
  repeat split.
  - exact G.
  - apply G.
  - apply G.
  - intros F req ipt H. now rewrite G, H.
  - unfold findQuery. rewrite H. reflexivity.
  - unfold findQuery. rewrite H. reflexivity.
  - unfold Match.reqQueryNameBytes, Match.reqQueryBytes. simpl.
    unfold findQuery. rewrite H. reflexivity.
  - unfold Match.reqQueryValueBytes, Match.reqQueryBytes. simpl.
    unfold findQuery. rewrite H. reflexivity.
Qed.


Lemma reqQueryBytes_extracts_witness :
  rawQuery sampleRequest = "a=1&b=2&a=3"
  /\ Match.reqQueryNameBytes SpecQueryFinder sampleRequest = "aba"
  /\ Match.reqQueryValueBytes SpecQueryFinder sampleRequest = "123"
  /\ Match.reqQueryBytes SpecQueryFinder sampleRequest
       (profile.OtherInsertionPoint 0) = "".
Proof.
  destruct reqQueryBytes_extracts as (_ & _ & Hnone & Hex).
  split; [reflexivity|].
  destruct (Hex sampleRequest eq_refl) as (_ & _ & Hn & Hv).
  split; [exact Hn|]. split; [exact Hv|].
  apply Hnone. reflexivity.
Defined.

End ExtractorFacts.

(** ** The template counter *)

Lemma int_incr_small (i : Z) :
  (- 2 ^ 63 <= i < 2 ^ 63 - 1)%Z -> int_incr i = (i + 1)%Z.
Proof.
  intros H. unfold int_incr, int_wrap.
  rewrite Z.mod_small by lia. lia.
Qed.

Lemma indicesFrom_length (a : Z) (n : nat) :
  List.length (indicesFrom a n) = n.
Proof. revert a. induction n; intros a; simpl; [|rewrite IHn]; reflexivity. Qed.

Lemma indicesFrom_app (a : Z) (n m : nat) :
  indicesFrom a (n + m) = (indicesFrom a n ++ indicesFrom (advance a n) m)%list.
Proof.
  revert a. induction n as [|n IH]; intros a; simpl; [reflexivity|].
  now rewrite IH.
Qed.

Lemma indicesFrom_firstn (a : Z) (k n : nat) :
  (k <= n)%nat -> firstn k (indicesFrom a n) = indicesFrom a k.
Proof.
  revert a n. induction k as [|k IH]; intros a n H; [reflexivity|].
  destruct n as [|n]; [lia|]. simpl. rewrite IH by lia. reflexivity.
Qed.

(** Below the wrap-around the counter values are consecutive integers. *)
Lemma indicesFrom_consecutive (a : Z) (n : nat) :
  (- 2 ^ 63 <= a)%Z -> (a + Z.of_nat n <= 2 ^ 63)%Z ->
  indicesFrom a n = map (fun k => (a + Z.of_nat k)%Z) (seq 0 n).
Proof.
  revert a. induction n as [|n IH]; intros a Ha Hn; [reflexivity|].
  cbn [indicesFrom seq map]. f_equal; [lia|].
  destruct n as [|n']; [reflexivity|].
  rewrite int_incr_small by lia. rewrite IH by lia.
  rewrite <- seq_shift, map_map. apply map_ext. intros k. lia.
Qed.

(** ** The world *)

Lemma addLogs_nil (w : cli.World) : addLogs w [] = w.
Proof. destruct w. unfold addLogs. simpl. now rewrite app_nil_r. Qed.

Lemma addLogs_app (w : cli.World) (a b : list (cli.Level * string)) :
  addLogs (addLogs w a) b = addLogs w (a ++ b)%list.
Proof. unfold addLogs. simpl. now rewrite app_assoc. Qed.

Lemma log_addLogs (lvl : cli.Level) (msg : string) (w : cli.World) :
  cli.log lvl msg w = (tt, addLogs w [(lvl, msg)]).
Proof. reflexivity. Qed.

(** ** The inline-config path: headers *)

Section ConfigFacts.

Context {env : cli.Env}.
Import cli.

Lemma headerOptions_ok (headers : MultiValue) (options : list request.Option) :
  Forall (fun h => strings.Contains h ":" = true) headers ->
  headerOptions headers options
  = Ok (options ++ map headerOption headers)%list.
Proof.
  revert options. induction headers as [|h hs IH]; intros options H.
  - cbn [headerOptions map]. now rewrite app_nil_r.
  - inversion H as [|? ? Hh Hhs]; subst.
    cbn [headerOptions map]. rewrite SplitN_colon_length, Hh. cbn [negb].
    rewrite IH by assumption. fold (headerOption h).
    now rewrite <- app_assoc.
Qed.

Lemma headerOptions_invalid (headers : MultiValue)
    (options : list request.Option) :
  Exists (fun h => strings.Contains h ":" = false) headers ->
  exists h, In h headers /\ strings.Contains h ":" = false
            /\ headerOptions headers options
               = Err (Errorf ErrInvalidHeader (": " ++ h)).
Proof.
  revert options. induction headers as [|h hs IH]; intros options H.
  - inversion H.
  - cbn [headerOptions]. rewrite SplitN_colon_length.
    destruct (strings.Contains h ":") eqn:Hh; cbn [negb].
    + inversion H as [? ? Hbad|? ? Hbad]; subst; [congruence|].
      fold (headerOption h).
      destruct (IH (options ++ [headerOption h])%list Hbad)
        as (h' & Hin & Hc & Heq).
      exists h'. split; [now right|]. split; [exact Hc|]. exact Heq.
    + exists h. split; [now left|]. split; [exact Hh|]. reflexivity.
Qed.

Lemma methodAndDataOptions_eq (cfg : Config) (w : World) :
  methodAndDataOptions cfg w = (baseOptions cfg, addLogs w (optionLogs cfg)).
Proof.
  unfold methodAndDataOptions, baseOptions, optionLogs, bind, ret.
  destruct (0 <? len (Method cfg))%Z; destruct (0 <? List.length (Data cfg))%nat;
    cbn [log app fst snd]; unfold addLogs; cbn [stored logged app];
    rewrite <- ?app_assoc; cbn [app]; rewrite ?app_nil_r;
    try reflexivity; destruct w; reflexivity.
Qed.

(** [createFromConfig], its log lines set apart: the headers decide whether
    the URLs are looked at. *)
Lemma createFromConfig_eq (cfg : Config) (pCfg : scan.ParamsCfg) (w : World) :
  createFromConfig cfg pCfg w
  = match headerOptions (Headers cfg) (baseOptions cfg) with
    | Err e => (Some e, addLogs w (configLogs cfg))
    | Ok options =>
        configURLSFrom (URLS cfg) options pCfg 0%Z
          (addLogs w (configLogs cfg))
    end.
Proof.
  unfold createFromConfig, bind. rewrite methodAndDataOptions_eq.
  unfold configLogs.
  destruct (0 <? List.length (Headers cfg))%nat.
  - rewrite log_addLogs, addLogs_app.
    destruct (headerOptions (Headers cfg) (baseOptions cfg)); reflexivity.
  - unfold ret. rewrite !app_nil_r.
    destruct (headerOptions (Headers cfg) (baseOptions cfg)); reflexivity.
Qed.

(** C3: when some header override of the configuration contains no colon,
    the inline-config path returns an error that wraps ErrInvalidHeader and
    names such a header; the stored templates are those of before, and the
    outcome is the same whatever the URL list is. *)
Theorem createFromConfig_invalid_header
    (cfg : Config) (pCfg : scan.ParamsCfg) (w : World) :
  Exists (fun h => strings.Contains h ":" = false) (Headers cfg) ->
  exists h w',
    In h (Headers cfg)
    /\ strings.Contains h ":" = false
    /\ createFromConfig cfg pCfg w
       = (Some (wrapError ("invalid header: " ++ h) ErrInvalidHeader), w')
    /\ errors.Is (wrapError ("invalid header: " ++ h) ErrInvalidHeader)
         ErrInvalidHeader = true
    /\ stored w' = stored w
    /\ forall urls,
         createFromConfig (withURLS cfg urls) pCfg w
         = createFromConfig cfg pCfg w.
Proof.
  intros H.
  destruct (headerOptions_invalid (Headers cfg) (baseOptions cfg) H)
    as (h & Hin & Hc & Heq).
  exists h, (addLogs w (configLogs cfg)).
  split; [exact Hin|]. split; [exact Hc|].
  split; [rewrite createFromConfig_eq, Heq; reflexivity|].
  split; [reflexivity|]. split; [reflexivity|].
  intros urls. rewrite !createFromConfig_eq.
  change (Headers (withURLS cfg urls)) with (Headers cfg).
  change (baseOptions (withURLS cfg urls)) with (baseOptions cfg).
  change (configLogs (withURLS cfg urls)) with (configLogs cfg).
  rewrite Heq. reflexivity.
Qed.

End ConfigFacts.

Lemma createFromConfig_invalid_header_witness :
  exists h w',
    In h ["Accept: */*"; "X-Test"]
    /\ strings.Contains h ":" = false
    /\ cli.createFromConfig (env := sampleEnv noFile) invalidHeaderConfig
         scan.zeroParamsCfg emptyWorld
       = (Some (wrapError ("invalid header: " ++ h) cli.ErrInvalidHeader), w')
    /\ cli.stored w' = [].
Proof.
  destruct (createFromConfig_invalid_header (env := sampleEnv noFile)
              invalidHeaderConfig scan.zeroParamsCfg emptyWorld)
    as (h & w' & H1 & H2 & H3 & _ & H5 & _).
  - apply Exists_cons_tl, Exists_cons_hd. reflexivity.
  - exists h, w'. repeat split; assumption.
Defined.

(** ** Parameter alteration and the template counter *)

Section AlterFacts.

Context (withParams : scan.ParamsCfg -> list string -> request.Request
                      -> request.Request).

Lemma alterFrom_indices (pc : scan.ParamsCfg) (tpl : scan.Template)
    (idx : Z) (bs : list (list string)) :
  map scan.Idx (scan.alterFrom withParams pc tpl idx bs)
  = indicesFrom idx (List.length (scan.alterFrom withParams pc tpl idx bs)).
Proof.
  revert idx. induction bs as [|b bs IH]; intros idx; simpl; [reflexivity|].
  now rewrite IH.
Qed.

Lemma Alter_indices (pc : scan.ParamsCfg) (tpl : scan.Template) :
  map scan.Idx (scan.Alter withParams pc tpl)
  = indicesFrom (scan.Idx tpl) (List.length (scan.Alter withParams pc tpl)).
Proof.
  unfold scan.Alter. destruct (scan.Params pc); [reflexivity|].
  apply alterFrom_indices.
Qed.

Lemma alterFrom_length (pc : scan.ParamsCfg) (tpl : scan.Template)
    (idx : Z) (bs : list (list string)) :
  List.length (scan.alterFrom withParams pc tpl idx bs) = List.length bs.
Proof.
  revert idx. induction bs as [|b bs IH]; intros idx; simpl; [reflexivity|].
  now rewrite IH.
Qed.

Lemma Alter_nonempty (pc : scan.ParamsCfg) (tpl : scan.Template) :
  (1 <= List.length (scan.Alter withParams pc tpl))%nat.
Proof.
  unfold scan.Alter. destruct (scan.Params pc) as [|p ps] eqn:E; [simpl; lia|].
  rewrite alterFrom_length. unfold scan.batches. rewrite E.
  destruct (scan.Size pc <=? 0)%Z; simpl; lia.
Qed.

Lemma Alter_empty_params (pc : scan.ParamsCfg) (tpl : scan.Template) :
  scan.Params pc = [] -> scan.Alter withParams pc tpl = [tpl].
Proof. intros H. unfold scan.Alter. now rewrite H. Qed.

End AlterFacts.

Lemma advance_add (a : Z) (n m : nat) :
  advance a (n + m) = advance (advance a n) m.
Proof.
  revert a. induction n as [|n IH]; intros a; simpl; [reflexivity|apply IH].
Qed.

(** ** Storing templates *)

Section StoreFacts.

Context {env : cli.Env}.
Import cli.

Lemma StoreTemplate_cases (tpl : scan.Template) (w : World) :
  (exists e, storeFails (stored w) tpl = Some e
             /\ StoreTemplate tpl w = (Some e, w))
  \/ (storeFails (stored w) tpl = None
      /\ StoreTemplate tpl w
         = (None, mkWorld (stored w ++ [tpl]) (logged w))).
Proof.
  unfold StoreTemplate. destruct (storeFails (stored w) tpl) as [e|].
  - left. exists e. split; reflexivity.
  - right. split; reflexivity.
Qed.

(** The inner loop of the raw-request path stores a prefix of its
    templates, all of them when it returns no error, and then the counter
    has advanced by their number. *)
Lemma storeFromRawRequest_prefix (path : string)
    (templates : list scan.Template) (tplIdx : Z) (w : World) :
  exists k,
    (k <= List.length templates)%nat
    /\ stored (snd (storeFromRawRequest path templates tplIdx w))
       = (stored w ++ firstn k templates)%list
    /\ (fst (fst (storeFromRawRequest path templates tplIdx w)) = None ->
        k = List.length templates
        /\ snd (fst (storeFromRawRequest path templates tplIdx w))
           = advance tplIdx k).
Proof.
  revert tplIdx w.
  induction templates as [|tpl tpls IH]; intros tplIdx w.
  - exists O. cbn. rewrite app_nil_r. repeat split; reflexivity.
  - cbn [storeFromRawRequest]. unfold bind.
    destruct (StoreTemplate_cases tpl w) as [(e & _ & E)|(_ & E)]; rewrite E.
    + exists O. cbn. rewrite app_nil_r.
      split; [lia|]. split; [reflexivity|]. discriminate.
    + destruct (IH (int_incr tplIdx) (mkWorld (stored w ++ [tpl]) (logged w)))
        as (k & Hk & Hs & Hn).
      exists (S k). split; [simpl; lia|]. split.
      * rewrite Hs. cbn [stored firstn]. now rewrite <- app_assoc.
      * intros Hnone. destruct (Hn Hnone) as (-> & ->). split; reflexivity.
Qed.

Lemma storeFromConfig_prefix (cfgURL : string)
    (templates : list scan.Template) (tplIdx : Z) (w : World) :
  exists k,
    (k <= List.length templates)%nat
    /\ stored (snd (storeFromConfig cfgURL templates tplIdx w))
       = (stored w ++ firstn k templates)%list
    /\ (fst (fst (storeFromConfig cfgURL templates tplIdx w)) = None ->
        k = List.length templates
        /\ snd (fst (storeFromConfig cfgURL templates tplIdx w))
           = advance tplIdx k).
Proof.
  revert tplIdx w.
  induction templates as [|tpl tpls IH]; intros tplIdx w.
  - exists O. cbn. rewrite app_nil_r. repeat split; reflexivity.
  - cbn [storeFromConfig]. unfold bind.
    destruct (StoreTemplate_cases tpl w) as [(e & _ & E)|(_ & E)]; rewrite E.
    + exists O. cbn. rewrite app_nil_r.
      split; [lia|]. split; [reflexivity|]. discriminate.
    + destruct (IH (int_incr tplIdx) (mkWorld (stored w ++ [tpl]) (logged w)))
        as (k & Hk & Hs & Hn).
      exists (S k). split; [simpl; lia|]. split.
      * rewrite Hs. cbn [stored firstn]. now rewrite <- app_assoc.
      * intros Hnone. destruct (Hn Hnone) as (-> & ->). split; reflexivity.
Qed.

(** With a store that never fails the inner loop of the inline-config path
    stores all its templates and logs nothing. *)
Lemma storeFromConfig_all (cfgURL : string)
    (templates : list scan.Template) (tplIdx : Z) (w : World) :
  (forall h t, storeFails h t = None) ->
  storeFromConfig cfgURL templates tplIdx w
  = ((None, advance tplIdx (List.length templates)),
     mkWorld (stored w ++ templates) (logged w)).
Proof.
  intros Hstore. revert tplIdx w.
  induction templates as [|tpl tpls IH]; intros tplIdx w.
  - cbn. rewrite app_nil_r. destruct w; reflexivity.
  - cbn [storeFromConfig]. unfold bind, StoreTemplate. rewrite Hstore.
    rewrite IH. cbn [stored logged List.length advance].
    now rewrite <- app_assoc.
Qed.

(** The raw-request path: whatever the outcome, the templates it has stored
    carry the successive values of the counter. *)
Lemma rawRequestFilesFrom_indices (paths : MultiValue)
    (pCfg : scan.ParamsCfg) (tplIdx : Z) (w : World) :
  exists new,
    stored (snd (rawRequestFilesFrom paths pCfg tplIdx w))
    = (stored w ++ new)%list
    /\ map scan.Idx new = indicesFrom tplIdx (List.length new).
Proof.
  revert tplIdx w. induction paths as [|path paths IH]; intros tplIdx w.
  - exists []. cbn. now rewrite app_nil_r.
  - cbn [rawRequestFilesFrom].
    destruct (os.ReadFile disk path) as [raw|err];
      [|exists []; cbn; now rewrite app_nil_r].
    unfold TemplateFromRawBytes, scan.TemplateFromRawBytes.
    destruct (request_ParseRequest raw) as [req|err];
      [|exists []; cbn; now rewrite app_nil_r].
    set (templates :=
           scan.Alter request_withParams pCfg
             (scan.NewTemplate tplIdx req None)).
    assert (Hidx : map scan.Idx templates
                   = indicesFrom tplIdx (List.length templates)).
    { unfold templates. rewrite Alter_indices. reflexivity. }
    unfold bind.
    destruct (storeFromRawRequest_prefix path templates tplIdx w)
      as (k & Hk & Hs & Hn).
    destruct (storeFromRawRequest path templates tplIdx w)
      as [[r tplIdx'] w1] eqn:E.
    cbn [fst snd] in Hs, Hn.
    destruct r as [e|].
    + exists (firstn k templates). split; [exact Hs|].
      rewrite <- firstn_map, Hidx, indicesFrom_firstn by exact Hk.
      now rewrite length_firstn, Nat.min_l by exact Hk.
    + destruct (Hn eq_refl) as (-> & ->).
      rewrite firstn_all in Hs.
      destruct (IH (advance tplIdx (List.length templates)) w1)
        as (new & Hnew & Hnidx).
      exists (templates ++ new)%list. split.
      * rewrite Hnew, Hs. now rewrite <- app_assoc.
      * rewrite map_app, Hidx, Hnidx, length_app.
        now rewrite indicesFrom_app.
Qed.

(** C7: in a run over raw-request files, the templates persisted to the
    store carry the indices 0, 1, 2, ... in the order they are stored,
    with no gap and no repetition, across the file boundaries (the
    counter is an [int]: the run stays below 2^63 templates). *)
Theorem raw_request_indices_dense (paths : MultiValue)
    (pCfg : scan.ParamsCfg) (w : World) :
  (Z.of_nat
     (List.length (stored (snd (createFromRawRequestFiles paths pCfg w))))
   <= 2 ^ 63)%Z ->
  exists new,
    stored (snd (createFromRawRequestFiles paths pCfg w))
    = (stored w ++ new)%list
    /\ map scan.Idx new = map Z.of_nat (seq 0 (List.length new)).
Proof.
  intros Hbound. unfold createFromRawRequestFiles in *.
  destruct (rawRequestFilesFrom_indices paths pCfg 0%Z w)
    as (new & Hnew & Hidx).
  exists new. split; [exact Hnew|].
  rewrite Hidx. rewrite Hnew, length_app in Hbound.
  rewrite indicesFrom_consecutive by lia.
  apply map_ext. intros k. lia.
Qed.

End StoreFacts.

Lemma raw_request_indices_dense_witness :
  exists new,
    cli.stored
      (snd (cli.createFromRawRequestFiles (env := sampleEnv rawDisk)
              ["first.txt"; "second.txt"] sampleParamsCfg emptyWorld))
    = ([] ++ new)%list
    /\ map scan.Idx new = map Z.of_nat (seq 0 (List.length new)).
Proof.
  apply (raw_request_indices_dense (env := sampleEnv rawDisk)
           ["first.txt"; "second.txt"] sampleParamsCfg emptyWorld).
  vm_compute. discriminate.
Defined.

Example raw_request_indices_run :
  map scan.Idx
    (cli.stored
       (snd (cli.createFromRawRequestFiles (env := sampleEnv rawDisk)
               ["first.txt"; "second.txt"] sampleParamsCfg emptyWorld)))
  = [0; 1; 2; 3]%Z.
Proof. vm_compute. reflexivity. Qed.

(** ** The inline-config path: URLs *)

Section ConfigURLFacts.

Context {env : cli.Env}.
Import cli.

Lemma validURL_true (u : string) :
  validURL u = true <-> snd (url_Validate u) = None.
Proof.
  unfold validURL. destruct (snd (url_Validate u)); split;
    congruence.
Qed.

(** The loop over the URLs never removes a stored template. *)
Lemma configURLSFrom_extends (urls : MultiValue)
    (options : list request.Option) (pCfg : scan.ParamsCfg) (tplIdx : Z)
    (w : World) :
  exists new,
    stored (snd (configURLSFrom urls options pCfg tplIdx w))
    = (stored w ++ new)%list.
Proof.
  revert tplIdx w. induction urls as [|u urls IH]; intros tplIdx w.
  - exists []. cbn. now rewrite app_nil_r.
  - cbn [configURLSFrom].
    destruct (url_Validate u) as [u' [e|]].
    + exists []. cbn. now rewrite app_nil_r.
    + unfold bind.
      set (templates := Alter pCfg _).
      destruct (storeFromConfig_prefix u' templates tplIdx w)
        as (k & _ & Hs & _).
      destruct (storeFromConfig u' templates tplIdx w)
        as [[r tplIdx'] w1].
      cbn [snd] in Hs. destruct r as [e|].
      * exists (firstn k templates). exact Hs.
      * destruct (IH tplIdx' w1) as (new & Hnew).
        exists (firstn k templates ++ new)%list.
        now rewrite Hnew, Hs, <- app_assoc.
Qed.

(** The loop over the URLs stops at an invalid URL: what it has done for
    the URLs before stays as it is. *)
Lemma configURLSFrom_stops (before : MultiValue) (bad : string)
    (rest : MultiValue) (options : list request.Option)
    (pCfg : scan.ParamsCfg) (tplIdx : Z) (w : World) (e : error) :
  snd (url_Validate bad) = Some e ->
  configURLSFrom (before ++ bad :: rest)%list options pCfg tplIdx w
  = match configURLSFrom before options pCfg tplIdx w with
    | (Some e0, w1) => (Some e0, w1)
    | (None, w1) =>
        (Some e,
         addLogs w1
           [(Error_, "Error while validating url ("
                     ++ fst (url_Validate bad) ++ "): " ++ Error e)])
    end.
Proof.
  intros Hbad. revert tplIdx w.
  induction before as [|u before IH]; intros tplIdx w.
  - cbn [app configURLSFrom]. destruct (url_Validate bad) as [b' err].
    cbn [snd] in Hbad. subst err. reflexivity.
  - cbn [app configURLSFrom].
    destruct (url_Validate u) as [u' [e0|]]; [reflexivity|].
    unfold bind.
    destruct (storeFromConfig u' _ tplIdx w) as [[[e0|] tplIdx'] w1];
      [reflexivity|].
    apply IH.
Qed.

(** With valid URLs and a store that never fails, the loop stores the
    templates of every URL, in order. *)
Lemma configURLSFrom_all (urls : MultiValue)
    (options : list request.Option) (pCfg : scan.ParamsCfg) (tplIdx : Z)
    (w : World) :
  (forall h t, storeFails h t = None) ->
  Forall (fun u => validURL u = true) urls ->
  configURLSFrom urls options pCfg tplIdx w
  = (None,
     mkWorld (stored w ++ templatesOfURLS urls options pCfg tplIdx)
       (logged w)).
Proof.
  intros Hstore Hvalid. revert tplIdx w.
  induction Hvalid as [|u urls Hu _ IH]; intros tplIdx w.
  - cbn. rewrite app_nil_r. destruct w; reflexivity.
  - cbn [configURLSFrom templatesOfURLS].
    apply validURL_true in Hu.
    destruct (url_Validate u) as [u' err]. cbn [fst snd] in *. subst err.
    unfold bind. rewrite storeFromConfig_all by exact Hstore.
    rewrite IH. cbn [stored logged]. now rewrite <- app_assoc.
Qed.

Lemma templatesOfURLS_length_ge (urls : MultiValue)
    (options : list request.Option) (pCfg : scan.ParamsCfg) (tplIdx : Z) :
  (List.length urls
   <= List.length (templatesOfURLS urls options pCfg tplIdx))%nat.
Proof.
  revert tplIdx. induction urls as [|u urls IH]; intros tplIdx;
    cbn [templatesOfURLS List.length]; [lia|].
  rewrite length_app.
  pose proof (Alter_nonempty request_withParams pCfg
                (scan.NewTemplate tplIdx
                   (request_WithOptions (fst (url_Validate u)) options)
                   None)) as H1.
  unfold Alter.
  specialize (IH (advance tplIdx
                    (List.length
                       (scan.Alter request_withParams pCfg
                          (scan.NewTemplate tplIdx
                             (request_WithOptions (fst (url_Validate u))
                                options) None))))).
  lia.
Qed.

(** Without parameters there is one template per URL: its request is built
    from the URL and the options, its index is the next counter value. *)
Lemma templatesOfURLS_no_params (urls : MultiValue)
    (options : list request.Option) (pCfg : scan.ParamsCfg) (tplIdx : Z) :
  scan.Params pCfg = [] ->
  templatesOfURLS urls options pCfg tplIdx
  = map (fun iu =>
           scan.NewTemplate (fst iu)
             (request_WithOptions (fst (url_Validate (snd iu))) options) None)
      (combine (indicesFrom tplIdx (List.length urls)) urls).
Proof.
  intros Hp. revert tplIdx. induction urls as [|u urls IH]; intros tplIdx;
    [reflexivity|].
  cbn [templatesOfURLS List.length indicesFrom combine map fst snd].
  unfold Alter. rewrite Alter_empty_params by exact Hp.
  cbn [app List.length advance]. now rewrite IH.
Qed.

Lemma createFromConfig_headers_ok (cfg : Config) (pCfg : scan.ParamsCfg)
    (w : World) :
  Forall (fun h => strings.Contains h ":" = true) (Headers cfg) ->
  createFromConfig cfg pCfg w
  = configURLSFrom (URLS cfg) (configOptions cfg) pCfg 0%Z
      (addLogs w (configLogs cfg)).
Proof.
  intros H. rewrite createFromConfig_eq, headerOptions_ok by exact H.
  reflexivity.
Qed.

End ConfigURLFacts.

(** C2: a parameter configuration without parameters alters a template
    into the one-element list of that same template; hence the
    inline-config path, run without parameters over valid URLs (well-formed
    headers, a store that accepts the templates), persists exactly one
    template per URL, in order: the request built for that URL, under the
    next index. *)
Theorem alter_identity_one_template_per_url :
  (forall withParams (pc : scan.ParamsCfg) (t : scan.Template),
      scan.Params pc = [] -> scan.Alter withParams pc t = [t])
  /\ (forall (env : cli.Env) (cfg : cli.Config) (pCfg : scan.ParamsCfg)
             (w : cli.World),
         scan.Params pCfg = [] ->
         Forall (fun h => strings.Contains h ":" = true) (cli.Headers cfg) ->
         Forall (fun u => validURL u = true) (cli.URLS cfg) ->
         (forall h t, cli.storeFails h t = None) ->
         let new :=
           map (fun iu =>
                  scan.NewTemplate (fst iu)
                    (cli.request_WithOptions
                       (fst (cli.url_Validate (snd iu))) (configOptions cfg))
                    None)
             (combine
                (indicesFrom 0%Z (List.length (cli.URLS cfg)))
                (cli.URLS cfg)) in
         cli.createFromConfig cfg pCfg w
         = (None,
            cli.mkWorld (cli.stored w ++ new)
              (cli.logged w ++ configLogs cfg))
         /\ List.length new = List.length (cli.URLS cfg)).
Proof.
  split.
  - intros withParams pc t H. now apply Alter_empty_params.
  - intros env cfg pCfg w Hp Hh Hu Hs new. split.
    + rewrite createFromConfig_headers_ok by exact Hh.
      rewrite configURLSFrom_all by assumption.
      rewrite templatesOfURLS_no_params by exact Hp. reflexivity.
    + unfold new. rewrite length_map, length_combine, indicesFrom_length.
      apply Nat.min_id.
Qed.

Lemma alter_identity_one_template_per_url_witness :
  scan.Alter sampleWithParams scan.zeroParamsCfg
    (scan.NewTemplate 7%Z sampleRequest None)
  = [scan.NewTemplate 7%Z sampleRequest None]
  /\ cli.createFromConfig (env := sampleEnv noFile)
       (inlineConfig ["http://a.example"; "https://b.example"])
       scan.zeroParamsCfg emptyWorld
     = (None,
        cli.mkWorld
          [scan.NewTemplate 0%Z
             (request.mkRequest "GET" "http://a.example" [] "") None;
           scan.NewTemplate 1%Z
             (request.mkRequest "GET" "https://b.example" [] "") None]
          []).
Proof.
  destruct alter_identity_one_template_per_url as (Ha & Hb).
  split.
  - apply Ha. reflexivity.
  - apply (Hb (sampleEnv noFile)
              (inlineConfig ["http://a.example"; "https://b.example"])
              scan.zeroParamsCfg emptyWorld).
    + reflexivity.
    + constructor.
    + repeat constructor.
    + reflexivity.
Defined.

(** C10: in the inline-config path a run whose URL list has an invalid URL
    after some valid ones leaves in the store exactly what the run over
    the valid ones alone leaves there; it removes nothing that was stored,
    and returns the validation error when the templates before were stored
    without error.  With a store that accepts every template these are the
    templates of all the valid URLs before, at least one per URL. *)
Theorem createFromConfig_no_rollback (env : cli.Env) (cfg : cli.Config)
    (pCfg : scan.ParamsCfg) (w : cli.World)
    (valids : cli.MultiValue) (bad : string) (rest : cli.MultiValue)
    (e : error) :
  Forall (fun h => strings.Contains h ":" = true) (cli.Headers cfg) ->
  cli.URLS cfg = (valids ++ bad :: rest)%list ->
  Forall (fun u => validURL u = true) valids ->
  snd (cli.url_Validate bad) = Some e ->
  let run := cli.createFromConfig cfg pCfg w in
  let before := cli.createFromConfig (cli.withURLS cfg valids) pCfg w in
  cli.stored (snd run) = cli.stored (snd before)
  /\ (exists new, cli.stored (snd run) = (cli.stored w ++ new)%list)
  /\ (fst before = None -> fst run = Some e)
  /\ ((forall h t, cli.storeFails h t = None) ->
      fst run = Some e
      /\ cli.stored (snd run)
         = (cli.stored w
            ++ templatesOfURLS valids (configOptions cfg) pCfg 0%Z)%list
      /\ (List.length valids
          <= List.length
               (templatesOfURLS valids (configOptions cfg) pCfg 0%Z))%nat).
Proof.
  intros Hh Hurls Hvalid Hbad run before.
  assert (Erun : run
                 = match before with
                   | (Some e0, w1) => (Some e0, w1)
                   | (None, w1) =>
                       (Some e,
                        addLogs w1
                          [(cli.Error_,
                            "Error while validating url ("
                            ++ fst (cli.url_Validate bad) ++ "): "
                            ++ Error e)])
                   end).
  { unfold run, before.
    rewrite !createFromConfig_headers_ok by exact Hh.
    rewrite Hurls. now apply configURLSFrom_stops. }
  assert (Ebefore : (forall h t, cli.storeFails h t = None) ->
                    before
                    = (None,
                       cli.mkWorld
                         (cli.stored w
                          ++ templatesOfURLS valids (configOptions cfg)
                               pCfg 0%Z)
                         (cli.logged w ++ configLogs cfg))).
  { intros Hs. unfold before.
    rewrite createFromConfig_headers_ok by exact Hh.
    now rewrite configURLSFrom_all. }
  split; [|split; [|split]].
  - rewrite Erun. destruct before as [[e0|] w1]; reflexivity.
  - unfold run. rewrite createFromConfig_headers_ok by exact Hh.
    destruct (configURLSFrom_extends (cli.URLS cfg) (configOptions cfg)
                pCfg 0%Z (addLogs w (configLogs cfg))) as (new & Hnew).
    exists new. exact Hnew.
  - rewrite Erun. destruct before as [[e0|] w1]; cbn; congruence.
  - intros Hs. rewrite Erun, (Ebefore Hs). cbn.
    split; [reflexivity|]. split; [reflexivity|].
    apply templatesOfURLS_length_ge.
Qed.

Lemma createFromConfig_no_rollback_witness :
  fst (cli.createFromConfig (env := sampleEnv noFile) invalidURLConfig
         scan.zeroParamsCfg emptyWorld)
  = Some (errors.New "invalid url")
  /\ cli.stored
       (snd (cli.createFromConfig (env := sampleEnv noFile) invalidURLConfig
               scan.zeroParamsCfg emptyWorld))
     = [scan.NewTemplate 0%Z
          (request.mkRequest "GET" "http://a.example" [] "") None].
Proof.
  destruct (createFromConfig_no_rollback (sampleEnv noFile)
              invalidURLConfig scan.zeroParamsCfg emptyWorld
              ["http://a.example"] "ftp://b.example" ["http://c.example"]
              (errors.New "invalid url"))
    as (_ & _ & _ & H).
  - constructor.
  - reflexivity.
  - repeat constructor.
  - reflexivity.
  - destruct H as (H1 & H2 & _); [reflexivity|].
    split; [exact H1 | exact H2].
Defined.

(** ** The scanner *)

Lemma scan_short (lines : list string) (rdErr : option error) :
  Forall (fun l => (len l < bufio.MaxScanTokenSize)%Z) lines ->
  bufio.scan lines rdErr = (map bufio.dropCR lines, rdErr).
Proof.
  induction 1 as [|l lines Hl _ IH]; [reflexivity|].
  cbn [bufio.scan map]. rewrite (proj2 (Z.ltb_lt _ _) Hl), IH. reflexivity.
Qed.

Lemma scan_too_long (short : list string) (l : string)
    (lines : list string) (rdErr : option error) :
  Forall (fun l => (len l < bufio.MaxScanTokenSize)%Z) short ->
  (bufio.MaxScanTokenSize <= len l)%Z ->
  bufio.scan (short ++ l :: lines) rdErr
  = (map bufio.dropCR short, Some bufio.ErrTooLong).
Proof.
  intros Hs Hl. induction Hs as [|s short Hlt _ IH].
  - cbn [app bufio.scan map]. now rewrite (proj2 (Z.ltb_ge _ _) Hl).
  - cbn [app bufio.scan map]. rewrite (proj2 (Z.ltb_lt _ _) Hlt), IH.
    reflexivity.
Qed.

Lemma rawLines_line (l rest : string) :
  hasByte bufio.newline l = false ->
  bufio.rawLines (l ++ String bufio.newline rest) = l :: bufio.rawLines rest.
Proof.
  induction l as [|c l IH]; intros H.
  - reflexivity.
  - cbn [hasByte] in H. apply orb_false_iff in H. destruct H as (Hc & Hl).
    cbn [append bufio.rawLines]. rewrite Hc, (IH Hl). reflexivity.
Qed.

Lemma replicate_length (n : nat) (c : ascii) :
  String.length (replicate n c) = n.
Proof. induction n; simpl; [|rewrite IHn]; reflexivity. Qed.

Lemma replicate_hasByte (n : nat) (c x : ascii) :
  Ascii.eqb c x = false -> hasByte x (replicate n c) = false.
Proof. intros H. induction n; simpl; [|rewrite H, IHn]; reflexivity. Qed.

(** ** The URLs file *)

Section UrlsFileFacts.

Context {env : cli.Env}.
Import cli.

Lemma withURLS_same (cfg : Config) : withURLS cfg (URLS cfg) = cfg.
Proof. destruct cfg; reflexivity. Qed.

Lemma survivors_cons (l : string) (lines : list string) :
  survivors (l :: lines)
  = if validURL l then fst (url_Validate l) :: survivors lines
    else survivors lines.
Proof. unfold survivors. cbn [filter]. destruct (validURL l); reflexivity. Qed.

Lemma skippedWarnings_cons (f l : string) (lines : list string) :
  skippedWarnings f (l :: lines)
  = if validURL l then skippedWarnings f lines
    else skipWarning f l :: skippedWarnings f lines.
Proof.
  unfold skippedWarnings. cbn [filter]. destruct (validURL l); reflexivity.
Qed.

(** The loop over the lines appends the valid ones and warns about the
    others. *)
Lemma appendValidURLS_eq (lines : list string) (cfg : Config) (w : World) :
  appendValidURLS lines cfg w
  = (withURLS cfg (URLS cfg ++ survivors lines),
     addLogs w (skippedWarnings (UrlsFile cfg) lines)).
Proof.
  revert cfg w. induction lines as [|l lines IH]; intros cfg w.
  - cbn. now rewrite app_nil_r, withURLS_same, addLogs_nil.
  - cbn [appendValidURLS]. rewrite survivors_cons, skippedWarnings_cons.
    unfold validURL at 1 2, skipWarning.
    destruct (url_Validate l) as [l' [e|]]; cbn [fst snd].
    + unfold bind. rewrite log_addLogs, IH, addLogs_app. reflexivity.
    + rewrite IH. unfold withURLS. cbn [URLS UrlsFile].
      now rewrite <- app_assoc.
Qed.

Lemma updateConfigWithURLS_eq (cfg : Config) (w : World) :
  updateConfigWithURLS cfg w
  = match os.Open disk (UrlsFile cfg) with
    | Err err =>
        match AsPathError err with
        | Some (_, _, pathErr_Err) =>
            ((Some (Errorf ErrProcessUrlsFile
                      ("(" ++ UrlsFile cfg ++ "): " ++ Error pathErr_Err)),
              cfg), w)
        | None =>
            ((Some (Errorf ErrProcessUrlsFile
                      ("(" ++ OutPath cfg ++ "): " ++ Error err)), cfg), w)
        end
    | Ok file =>
        let scanned := bufio.ScanLines (os.data file) (os.rdErr file) in
        ((snd scanned,
          withURLS cfg (URLS cfg ++ survivors (fst scanned))),
         addLogs w (skippedWarnings (UrlsFile cfg) (fst scanned)))
    end.
Proof.
  unfold updateConfigWithURLS.
  destruct (os.Open disk (UrlsFile cfg)) as [file|err].
  - destruct (bufio.ScanLines (os.data file) (os.rdErr file))
      as [lines scanErr].
    unfold bind, ret. rewrite appendValidURLS_eq. reflexivity.
  - destruct (AsPathError err) as [[[op p] e]|]; reflexivity.
Qed.

(** Updating the configuration stores nothing. *)
Lemma updateConfigWithURLS_stored (cfg : Config) (w : World) :
  stored (snd (updateConfigWithURLS cfg w)) = stored w.
Proof.
  rewrite updateConfigWithURLS_eq.
  destruct (os.Open disk (UrlsFile cfg)) as [file|err]; [reflexivity|].
  destruct (AsPathError err) as [[[op p] e]|]; reflexivity.
Qed.

(** The four cases of [createTemplates], in the order it tries them. *)
Lemma createTemplates_cases (cfg : Config)
    (pCfg : scan.ParamsCfg) (w : World) :
  let w0 := addLogs w [(Info, "Preparing templates for scan")] in
  (RequestsFile cfg <> "" ->
   createTemplates cfg pCfg w
   = createFromRequestsFile (RequestsFile cfg) pCfg
       (addLogs w0
          [(Info, "Scan templates from requests file: "
                  ++ RequestsFile cfg)]))
  /\ (RequestsFile cfg = "" -> RawRequests cfg <> [] ->
      createTemplates cfg pCfg w
      = createFromRawRequestFiles (RawRequests cfg) pCfg
          (addLogs w0
             [(Info, "Scan templates from raw requests: "
                     ++ MultiValue_Format (RawRequests cfg))]))
  /\ (RequestsFile cfg = "" -> RawRequests cfg = [] -> UrlsFile cfg <> "" ->
      match
        updateConfigWithURLS cfg
          (addLogs w0 [(Info, "Updating config with urls file")])
      with
      | ((None, cfg'), w2) =>
          (exists file,
              os.Open disk (UrlsFile cfg) = Ok file
              /\ cfg'
                 = withURLS cfg
                     (URLS cfg
                      ++ survivors
                           (fst (bufio.ScanLines (os.data file)
                                   (os.rdErr file)))))
          /\ createTemplates cfg pCfg w
             = createFromConfig cfg' pCfg
                 (addLogs w2 [(Info, "Scan templates from config")])
      | ((Some err, _), w2) =>
          createTemplates cfg pCfg w
          = (Some err,
             addLogs w2
               [(Error_, "Error while updating config with urls file: "
                         ++ Error err)])
          /\ stored w2 = stored w
      end)
  /\ (RequestsFile cfg = "" -> RawRequests cfg = [] -> UrlsFile cfg = "" ->
      createTemplates cfg pCfg w
      = createFromConfig cfg pCfg
          (addLogs w0 [(Info, "Scan templates from config")])).
Proof.
  intros w0. unfold createTemplates, bind. rewrite log_addLogs. fold w0.
  split; [|split; [|split]].
  - intros H. apply len_pos_iff in H. rewrite H, log_addLogs. reflexivity.
  - intros H1 H2. rewrite (proj2 (len_zero_iff _) H1).
    apply length_pos_iff in H2. rewrite H2, log_addLogs. reflexivity.
  - intros H1 H2 H3. rewrite (proj2 (len_zero_iff _) H1). rewrite H2.
    cbn [List.length Nat.ltb Nat.leb].
    apply len_pos_iff in H3. rewrite H3, log_addLogs.
    pose proof (updateConfigWithURLS_stored cfg
                  (addLogs w0 [(Info, "Updating config with urls file")]))
      as Hst.
    pose proof (updateConfigWithURLS_eq cfg
                  (addLogs w0 [(Info, "Updating config with urls file")]))
      as Heq.
    destruct (updateConfigWithURLS cfg
                (addLogs w0 [(Info, "Updating config with urls file")]))
      as [[[err|] cfg'] w2].
    + split; [reflexivity|exact Hst].
    + split; [|reflexivity].
      destruct (os.Open disk (UrlsFile cfg)) as [file|err].
      * exists file. split; [reflexivity|]. cbv zeta in Heq.
        now inversion Heq.
      * destruct (AsPathError err) as [[[op p] e]|]; discriminate.
  - intros H1 H2 H3. rewrite (proj2 (len_zero_iff _) H1), H2.
    cbn [List.length Nat.ltb Nat.leb].
    rewrite (proj2 (len_zero_iff _) H3), log_addLogs. reflexivity.
Qed.

(** C1: the source of the templates is chosen by a fixed priority.  A
    captured-requests file, when configured, drives the run; otherwise the
    raw-request files, when some are configured; otherwise a URLs file,
    when configured: the configuration is updated from it and, unless the
    update fails (then the run returns that error and has stored nothing),
    the inline-config path runs on the configuration whose URL list is the
    configured one followed by the surviving URLs of the file; otherwise
    the inline-config path runs on the configuration as it is. *)
Theorem createTemplates_source_priority (cfg : Config)
    (pCfg : scan.ParamsCfg) (w : World) :
  let w0 := addLogs w [(Info, "Preparing templates for scan")] in
  (RequestsFile cfg <> "" ->
   createTemplates cfg pCfg w
   = createFromRequestsFile (RequestsFile cfg) pCfg
       (addLogs w0
          [(Info, "Scan templates from requests file: "
                  ++ RequestsFile cfg)]))
  /\ (RequestsFile cfg = "" -> RawRequests cfg <> [] ->
      createTemplates cfg pCfg w
      = createFromRawRequestFiles (RawRequests cfg) pCfg
          (addLogs w0
             [(Info, "Scan templates from raw requests: "
                     ++ MultiValue_Format (RawRequests cfg))]))
  /\ (RequestsFile cfg = "" -> RawRequests cfg = [] -> UrlsFile cfg <> "" ->
      match
        updateConfigWithURLS cfg
          (addLogs w0 [(Info, "Updating config with urls file")])
      with
      | ((None, cfg'), w2) =>
          (exists file,
              os.Open disk (UrlsFile cfg) = Ok file
              /\ cfg'
                 = withURLS cfg
                     (URLS cfg
                      ++ survivors
                           (fst (bufio.ScanLines (os.data file)
                                   (os.rdErr file)))))
          /\ createTemplates cfg pCfg w
             = createFromConfig cfg' pCfg
                 (addLogs w2 [(Info, "Scan templates from config")])
      | ((Some err, _), w2) =>
          createTemplates cfg pCfg w
          = (Some err,
             addLogs w2
               [(Error_, "Error while updating config with urls file: "
                         ++ Error err)])
          /\ stored w2 = stored w
      end)
  /\ (RequestsFile cfg = "" -> RawRequests cfg = [] -> UrlsFile cfg = "" ->
      createTemplates cfg pCfg w
      = createFromConfig cfg pCfg
          (addLogs w0 [(Info, "Scan templates from config")])).
Proof. exact (createTemplates_cases cfg pCfg w). Qed.

End UrlsFileFacts.

Lemma createTemplates_source_priority_witness :
  cli.createTemplates (env := sampleEnv rawDisk) everySourceConfig
    sampleParamsCfg emptyWorld
  = cli.createFromRequestsFile (env := sampleEnv rawDisk) "requests.zip"
      sampleParamsCfg
      (addLogs emptyWorld
         [(cli.Info, "Preparing templates for scan");
          (cli.Info, "Scan templates from requests file: requests.zip")])
  /\ cli.createTemplates (env := sampleEnv rawDisk) rawAndUrlsConfig
       sampleParamsCfg emptyWorld
     = cli.createFromRawRequestFiles (env := sampleEnv rawDisk)
         ["first.txt"] sampleParamsCfg
         (addLogs emptyWorld
            [(cli.Info, "Preparing templates for scan");
             (cli.Info, "Scan templates from raw requests: first.txt")])
  /\ cli.createTemplates
       (env := sampleEnv (oneFile "urls.txt" urlsFile))
       (urlsFileConfig "urls.txt") sampleParamsCfg emptyWorld
     = cli.createFromConfig
         (env := sampleEnv (oneFile "urls.txt" urlsFile))
         (cli.withURLS (urlsFileConfig "urls.txt")
            ["http://z.example"; "http://a.example"])
         sampleParamsCfg
         (addLogs emptyWorld
            [(cli.Info, "Preparing templates for scan");
             (cli.Info, "Updating config with urls file");
             (cli.Warn,
              "Skipping url(s) file (urls.txt) line (not a url) - not a valid url: invalid url");
             (cli.Info, "Scan templates from config")])
  /\ cli.createTemplates (env := sampleEnv noFile)
       (inlineConfig ["http://a.example"]) sampleParamsCfg emptyWorld
     = cli.createFromConfig (env := sampleEnv noFile)
         (inlineConfig ["http://a.example"]) sampleParamsCfg
         (addLogs emptyWorld
            [(cli.Info, "Preparing templates for scan");
             (cli.Info, "Scan templates from config")]).
Proof.
  split; [|split; [|split]].
  - destruct (createTemplates_source_priority (env := sampleEnv rawDisk)
                everySourceConfig sampleParamsCfg emptyWorld) as (H & _).
    apply H. discriminate.
  - destruct (createTemplates_source_priority (env := sampleEnv rawDisk)
                rawAndUrlsConfig sampleParamsCfg emptyWorld)
      as (_ & H & _).
    apply H; [reflexivity|discriminate].
  - destruct (createTemplates_source_priority
                (env := sampleEnv (oneFile "urls.txt" urlsFile))
                (urlsFileConfig "urls.txt") sampleParamsCfg emptyWorld)
      as (_ & _ & H & _).
    specialize (H eq_refl eq_refl). cbv zeta in H.
    assert (E : cli.updateConfigWithURLS
                  (env := sampleEnv (oneFile "urls.txt" urlsFile))
                  (urlsFileConfig "urls.txt")
                  (addLogs
                     (addLogs emptyWorld
                        [(cli.Info, "Preparing templates for scan")])
                     [(cli.Info, "Updating config with urls file")])
                = ((None,
                    cli.withURLS (urlsFileConfig "urls.txt")
                      ["http://z.example"; "http://a.example"]),
                   addLogs emptyWorld
                     [(cli.Info, "Preparing templates for scan");
                      (cli.Info, "Updating config with urls file");
                      (cli.Warn,
                       "Skipping url(s) file (urls.txt) line (not a url) - not a valid url: invalid url")]))
      by reflexivity.
    rewrite E in H. destruct H as (_ & H); [discriminate|]. exact H.
  - destruct (createTemplates_source_priority (env := sampleEnv noFile)
                (inlineConfig ["http://a.example"]) sampleParamsCfg
                emptyWorld) as (_ & _ & _ & H).
    apply H; reflexivity.
Defined.

Section UrlsFileLenient.

Context {env : cli.Env}.
Import cli.



End UrlsFileLenient.

Lemma len_longLine : len longLine = 65536%Z.
Proof.
  unfold len, longLine. rewrite replicate_length. now rewrite Z2Nat.id.
Qed.

Lemma longLine_no_newline : hasByte bufio.newline longLine = false.
Proof. unfold longLine. now apply replicate_hasByte. Qed.


(** The scanner gives up at a line of 64 KiB or more. *)
Lemma ScanLines_urlsFileAround (long : string) :
  hasByte bufio.newline long = false ->
  (bufio.MaxScanTokenSize <= len long)%Z ->
  bufio.ScanLines (os.data (urlsFileAround long)) None
  = (["http://a.example"], Some bufio.ErrTooLong).
Proof.
  intros Hnl Hlen. unfold bufio.ScanLines, urlsFileAround. cbn [os.data].
  rewrite rawLines_line by reflexivity.
  rewrite rawLines_line by exact Hnl.
  apply (scan_too_long ["http://a.example"]).
  - repeat constructor.
  - exact Hlen.
Qed.


(** The run over such a file: the first line has been appended when the
    scanner gives up, the update returns the scanner's error, and the run
    returns it without storing a template. *)
Lemma urlsFileAround_run (long : string) (pCfg : scan.ParamsCfg) :
  hasByte bufio.newline long = false ->
  (bufio.MaxScanTokenSize <= len long)%Z ->
  fst (cli.createTemplates
         (env := sampleEnv (oneFile "urls.txt" (urlsFileAround long)))
         (urlsFileConfig "urls.txt") pCfg emptyWorld)
  = Some bufio.ErrTooLong
  /\ cli.stored
       (snd (cli.createTemplates
               (env := sampleEnv (oneFile "urls.txt" (urlsFileAround long)))
               (urlsFileConfig "urls.txt") pCfg emptyWorld))
     = [].
Proof.
  intros Hnl Hlen.
  destruct (createTemplates_cases
              (env := sampleEnv (oneFile "urls.txt" (urlsFileAround long)))
              (urlsFileConfig "urls.txt") pCfg emptyWorld)
    as (_ & _ & Hc & _).
  specialize (Hc eq_refl eq_refl). cbv zeta in Hc.
  rewrite updateConfigWithURLS_eq in Hc.
  assert (Hopen : os.Open
                    (@cli.disk
                       (sampleEnv (oneFile "urls.txt" (urlsFileAround long))))
                    (cli.UrlsFile (urlsFileConfig "urls.txt"))
                  = Ok (urlsFileAround long)) by reflexivity.
  rewrite Hopen in Hc. cbv zeta in Hc.
  change (os.rdErr (urlsFileAround long)) with (@None error) in Hc.
  rewrite (ScanLines_urlsFileAround long Hnl Hlen) in Hc.
  cbn [fst snd] in Hc. destruct Hc as (Hc & _); [discriminate|].
  rewrite Hc. split; reflexivity.
Qed.

Lemma longLine_too_long : (bufio.MaxScanTokenSize <= len longLine)%Z.
Proof. rewrite len_longLine. vm_compute. discriminate. Qed.


(** ** The parameter file *)

Section ParamsFileFacts.

Context {env : cli.Env}.
Import cli.

(** A parameter file without a line of 64 KiB or more gives one parameter
    per line, in file order: the line without its end-of-line marker,
    trimmed.  Blank lines give empty parameters. *)
Lemma readParamsFile_lines (pathToFile contents : string) (w : World) :
  os.ReadFile disk pathToFile = Ok contents ->
  Forall (fun l => (len l < bufio.MaxScanTokenSize)%Z)
    (bufio.rawLines contents) ->
  readParamsFile pathToFile w
  = (Ok (map strings.TrimSpace
           (map bufio.dropCR (bufio.rawLines contents))),
     addLogs w [(Info, "Reading params file from: " ++ pathToFile)]).
Proof.
  intros Hread Hshort. unfold readParamsFile, bind.
  rewrite log_addLogs, Hread. unfold bufio.ScanLines.
  rewrite scan_short by exact Hshort. reflexivity.
Qed.

(** At the first line of 64 KiB or more the scanner stops; the reader
    returns the parameters of the lines before, and no error. *)
Lemma readParamsFile_truncated (pathToFile contents : string)
    (short : list string) (l : string) (lines : list string) (w : World) :
  os.ReadFile disk pathToFile = Ok contents ->
  bufio.rawLines contents = (short ++ l :: lines)%list ->
  Forall (fun l => (len l < bufio.MaxScanTokenSize)%Z) short ->
  (bufio.MaxScanTokenSize <= len l)%Z ->
  readParamsFile pathToFile w
  = (Ok (map strings.TrimSpace (map bufio.dropCR short)),
     addLogs w [(Info, "Reading params file from: " ++ pathToFile)]).
Proof.
  intros Hread Hlines Hshort Hlong. unfold readParamsFile, bind.
  rewrite log_addLogs, Hread. unfold bufio.ScanLines.
  rewrite Hlines, scan_too_long by assumption. reflexivity.
Qed.

Lemma createFromConfig_withParamsFile (cfg : Config) (path : string)
    (pCfg : scan.ParamsCfg) (w : World) :
  createFromConfig (withParamsFile cfg path) pCfg w
  = createFromConfig cfg pCfg w.
Proof. reflexivity. Qed.

(** [createTemplates] does not look at the parameter file path. *)
Lemma createTemplates_withParamsFile (cfg : Config) (path : string)
    (pCfg : scan.ParamsCfg) (w : World) :
  createTemplates (withParamsFile cfg path) pCfg w
  = createTemplates cfg pCfg w.
Proof.
  unfold createTemplates, bind.
  change (RequestsFile (withParamsFile cfg path)) with (RequestsFile cfg).
  change (RawRequests (withParamsFile cfg path)) with (RawRequests cfg).
  change (UrlsFile (withParamsFile cfg path)) with (UrlsFile cfg).
  destruct (log Info "Preparing templates for scan" w) as [u w0].
  destruct (0 <? len (RequestsFile cfg))%Z; [reflexivity|].
  destruct (0 <? List.length (RawRequests cfg))%nat; [reflexivity|].
  destruct (0 <? len (UrlsFile cfg))%Z; [|reflexivity].
  destruct (log Info "Updating config with urls file" w0) as [u1 w1].
  rewrite !updateConfigWithURLS_eq.
  change (UrlsFile (withParamsFile cfg path)) with (UrlsFile cfg).
  change (OutPath (withParamsFile cfg path)) with (OutPath cfg).
  change (URLS (withParamsFile cfg path)) with (URLS cfg).
  destruct (os.Open disk (UrlsFile cfg)) as [file|err].
  - cbv zeta.
    destruct (snd (bufio.ScanLines (os.data file) (os.rdErr file)));
      reflexivity.
  - destruct (AsPathError err) as [[[op p] e]|]; reflexivity.
Qed.

End ParamsFileFacts.

(** ** The log has no influence on a run *)

Section Oblivious.

Context {env : cli.Env}.
Import cli.

Lemma oblivious_ret {A : Type} (a : A) : oblivious (ret a).
Proof. intros w1 w2 H. split; [reflexivity|exact H]. Qed.

Lemma oblivious_log (lvl : Level) (msg : string) : oblivious (log lvl msg).
Proof. intros w1 w2 H. split; [reflexivity|exact H]. Qed.

Lemma oblivious_bind {A B : Type} (c : M A) (k : A -> M B) :
  oblivious c -> (forall a, oblivious (k a)) -> oblivious (bind c k).
Proof.
  intros Hc Hk w1 w2 H. unfold bind.
  destruct (Hc w1 w2 H) as (Hr & Hs).
  destruct (c w1) as [a1 w1'], (c w2) as [a2 w2']. cbn [fst snd] in *.
  subst a2. now apply Hk.
Qed.

Lemma oblivious_StoreTemplate (tpl : scan.Template) :
  oblivious (StoreTemplate tpl).
Proof.
  intros w1 w2 H. unfold StoreTemplate. rewrite H.
  destruct (storeFails (stored w2) tpl); cbn [fst snd stored];
    split; congruence.
Qed.

Ltac oblivious_step :=
  match goal with
  | |- oblivious (ret _) => apply oblivious_ret
  | |- oblivious (log _ _) => apply oblivious_log
  | |- oblivious (StoreTemplate _) => apply oblivious_StoreTemplate
  | |- oblivious (bind _ _) => apply oblivious_bind; [|intros ?]
  | H : forall _, oblivious _ |- oblivious _ => apply H
  | H : forall _ _, oblivious _ |- oblivious _ => apply H
  | H : forall _ _ _, oblivious _ |- oblivious _ => apply H
  | |- oblivious (match ?x with _ => _ end) => destruct x
  end.

Ltac oblivious_auto := repeat oblivious_step.

Lemma oblivious_readParamsFile (path : string) :
  oblivious (readParamsFile path).
Proof. unfold readParamsFile. oblivious_auto. Qed.

Lemma oblivious_storeFromRequestsFile (path : string)
    (templates : list scan.Template) :
  oblivious (storeFromRequestsFile path templates).
Proof.
  induction templates as [|t ts IH]; cbn [storeFromRequestsFile];
    oblivious_auto. exact IH.
Qed.

Lemma oblivious_createFromRequestsFile (path : string)
    (pCfg : scan.ParamsCfg) :
  oblivious (createFromRequestsFile path pCfg).
Proof.
  unfold createFromRequestsFile. oblivious_auto.
  apply oblivious_storeFromRequestsFile.
Qed.

Lemma oblivious_storeFromRawRequest (path : string)
    (templates : list scan.Template) (tplIdx : Z) :
  oblivious (storeFromRawRequest path templates tplIdx).
Proof.
  revert tplIdx.
  induction templates as [|t ts IH]; intros tplIdx;
    cbn [storeFromRawRequest]; oblivious_auto.
Qed.

Lemma oblivious_rawRequestFilesFrom (paths : MultiValue)
    (pCfg : scan.ParamsCfg) (tplIdx : Z) :
  oblivious (rawRequestFilesFrom paths pCfg tplIdx).
Proof.
  revert tplIdx.
  induction paths as [|p ps IH]; intros tplIdx;
    cbn [rawRequestFilesFrom]; oblivious_auto.
  apply oblivious_storeFromRawRequest.
Qed.

Lemma oblivious_storeFromConfig (cfgURL : string)
    (templates : list scan.Template) (tplIdx : Z) :
  oblivious (storeFromConfig cfgURL templates tplIdx).
Proof.
  revert tplIdx.
  induction templates as [|t ts IH]; intros tplIdx;
    cbn [storeFromConfig]; oblivious_auto.
Qed.

Lemma oblivious_configURLSFrom (urls : MultiValue)
    (options : list request.Option) (pCfg : scan.ParamsCfg) (tplIdx : Z) :
  oblivious (configURLSFrom urls options pCfg tplIdx).
Proof.
  revert tplIdx.
  induction urls as [|u us IH]; intros tplIdx;
    cbn [configURLSFrom]; oblivious_auto.
  apply oblivious_storeFromConfig.
Qed.

Lemma oblivious_createFromConfig (cfg : Config) (pCfg : scan.ParamsCfg) :
  oblivious (createFromConfig cfg pCfg).
Proof.
  unfold createFromConfig, methodAndDataOptions. oblivious_auto.
  apply oblivious_configURLSFrom.
Qed.

Lemma oblivious_appendValidURLS (lines : list string) (cfg : Config) :
  oblivious (appendValidURLS lines cfg).
Proof.
  revert cfg.
  induction lines as [|l ls IH]; intros cfg;
    cbn [appendValidURLS]; oblivious_auto.
Qed.

Lemma oblivious_updateConfigWithURLS (cfg : Config) :
  oblivious (updateConfigWithURLS cfg).
Proof.
  unfold updateConfigWithURLS. oblivious_auto.
  apply oblivious_appendValidURLS.
Qed.

Lemma oblivious_createTemplates (cfg : Config) (pCfg : scan.ParamsCfg) :
  oblivious (createTemplates cfg pCfg).
Proof.
  unfold createTemplates. oblivious_auto;
    first [ apply oblivious_createFromRequestsFile
          | apply oblivious_rawRequestFilesFrom
          | apply oblivious_updateConfigWithURLS
          | apply oblivious_createFromConfig ].
Qed.

Lemma oblivious_PrepareTemplates (cfg : Config) :
  oblivious (PrepareTemplates cfg).
Proof.
  unfold PrepareTemplates. oblivious_auto;
    first [ apply oblivious_readParamsFile
          | apply oblivious_createTemplates ].
Qed.

End Oblivious.

Section ParamsFileFailure.

Context {env : cli.Env}.
Import cli.

(** C5: when the parameter file of the configuration cannot be read,
    template preparation logs the failure and goes on as it does with no
    parameter file configured, with the zero parameter configuration: it
    returns what the run without a parameter file returns, never the read
    failure as such, and stores the same templates. *)
Theorem params_file_failure_not_fatal (cfg : Config) (w : World)
    (err : error) :
  ParamsFile cfg <> "" ->
  os.ReadFile disk (ParamsFile cfg) = Err err ->
  let w1 :=
    addLogs w
      [(Info, "Reading params file from: " ++ ParamsFile cfg);
       (Error_, "Error while reading params file: " ++ Error err)] in
  PrepareTemplates cfg w = createTemplates cfg scan.zeroParamsCfg w1
  /\ PrepareTemplates cfg w = PrepareTemplates (withParamsFile cfg "") w1
  /\ fst (PrepareTemplates cfg w)
     = fst (PrepareTemplates (withParamsFile cfg "") w)
  /\ stored (snd (PrepareTemplates cfg w))
     = stored (snd (PrepareTemplates (withParamsFile cfg "") w)).
Proof.
  intros Hset Hread w1.
  assert (E : PrepareTemplates cfg w
              = createTemplates cfg scan.zeroParamsCfg w1).
  { unfold PrepareTemplates. apply len_pos_iff in Hset. rewrite Hset.
    unfold bind, readParamsFile, bind, log, ret. rewrite Hread.
    unfold w1, addLogs. cbn [stored logged]. rewrite <- app_assoc.
    reflexivity. }
  assert (E' : PrepareTemplates cfg w
               = PrepareTemplates (withParamsFile cfg "") w1).
  { rewrite E. unfold PrepareTemplates at 1. cbn [ParamsFile withParamsFile].
    change (0 <? len "")%Z with false. cbv iota.
    now rewrite createTemplates_withParamsFile. }
  split; [exact E|]. split; [exact E'|].
  rewrite E'.
  apply (oblivious_PrepareTemplates (withParamsFile cfg "") w1 w).
  reflexivity.
Qed.

End ParamsFileFailure.

Lemma params_file_failure_not_fatal_witness :
  cli.PrepareTemplates (env := sampleEnv noFile)
    (paramsFileConfig "params.txt") emptyWorld
  = cli.createTemplates (env := sampleEnv noFile)
      (paramsFileConfig "params.txt") scan.zeroParamsCfg
      (addLogs emptyWorld
         [(cli.Info, "Reading params file from: params.txt");
          (cli.Error_,
           "Error while reading params file: open params.txt: no such file or directory")])
  /\ fst (cli.PrepareTemplates (env := sampleEnv noFile)
            (paramsFileConfig "params.txt") emptyWorld)
     = fst (cli.PrepareTemplates (env := sampleEnv noFile)
              (cli.withParamsFile (paramsFileConfig "params.txt") "")
              emptyWorld).
Proof.
  destruct (params_file_failure_not_fatal (env := sampleEnv noFile)
              (paramsFileConfig "params.txt") emptyWorld
              (PathError "open" "params.txt" ENOENT))
    as (H1 & _ & H3 & _).
  - discriminate.
  - reflexivity.
  - split; [exact H1|exact H3].
Defined.

Example params_file_failure_run :
  cli.PrepareTemplates (env := sampleEnv noFile)
    (paramsFileConfig "params.txt") emptyWorld
  = (None,
     cli.mkWorld
       [scan.NewTemplate 0%Z
          (request.mkRequest "GET" "http://z.example" [] "") None]
       [(cli.Info, "Reading params file from: params.txt");
        (cli.Error_,
         "Error while reading params file: open params.txt: no such file or directory");
        (cli.Info, "Preparing templates for scan");
        (cli.Info, "Scan templates from config")]).
Proof. vm_compute. reflexivity. Qed.

(** ** Failures of the URLs file *)

Section UrlsFileErrors.

Context {env : cli.Env}.
Import cli.

(** A URLs file that cannot be opened: the run stops with an error that
    wraps ErrProcessUrlsFile and whose message has the path of the file
    and the text of the underlying failure. *)
Lemma urls_file_open_error (cfg : Config) (pCfg : scan.ParamsCfg)
    (w : World) (op path : string) (e : error) :
  RequestsFile cfg = "" -> RawRequests cfg = [] -> UrlsFile cfg <> "" ->
  os.Open disk (UrlsFile cfg) = Err (PathError op path e) ->
  let err :=
    wrapError
      ("could not process url(s) file(" ++ UrlsFile cfg ++ "): " ++ Error e)
      ErrProcessUrlsFile in
  fst (createTemplates cfg pCfg w) = Some err
  /\ errors.Is err ErrProcessUrlsFile = true
  /\ stored (snd (createTemplates cfg pCfg w)) = stored w.
Proof.
  intros H1 H2 H3 Hopen err.
  destruct (createTemplates_cases cfg pCfg w) as (_ & _ & Hc & _).
  specialize (Hc H1 H2 H3). rewrite updateConfigWithURLS_eq, Hopen in Hc.
  cbn [AsPathError] in Hc. destruct Hc as (Hc & _). rewrite Hc.
  repeat split.
Qed.

(** An error of [os.Open] that holds no path error is reported with the
    output path of the configuration, not with the path of the URLs
    file. *)
Lemma urls_file_open_error_names_OutPath (cfg : Config) (w : World)
    (err : error) :
  os.Open disk (UrlsFile cfg) = Err err ->
  AsPathError err = None ->
  fst (fst (updateConfigWithURLS cfg w))
  = Some (wrapError
            ("could not process url(s) file(" ++ OutPath cfg ++ "): "
             ++ Error err)
            ErrProcessUrlsFile).
Proof.
  intros Hopen Has. rewrite updateConfigWithURLS_eq, Hopen, Has. reflexivity.
Qed.

(** A URLs file that opens and then fails to be read: the run stops with
    the error of the reader as it is. *)
Lemma urls_file_read_error (cfg : Config) (pCfg : scan.ParamsCfg)
    (w : World) (file : os.File) (e : error) :
  RequestsFile cfg = "" -> RawRequests cfg = [] -> UrlsFile cfg <> "" ->
  os.Open disk (UrlsFile cfg) = Ok file ->
  os.rdErr file = Some e ->
  Forall (fun l => (len l < bufio.MaxScanTokenSize)%Z)
    (bufio.rawLines (os.data file)) ->
  fst (createTemplates cfg pCfg w) = Some e
  /\ stored (snd (createTemplates cfg pCfg w)) = stored w.
Proof.
  intros H1 H2 H3 Hopen Hrd Hshort.
  destruct (createTemplates_cases cfg pCfg w) as (_ & _ & Hc & _).
  specialize (Hc H1 H2 H3). rewrite updateConfigWithURLS_eq, Hopen in Hc.
  unfold bufio.ScanLines in Hc. rewrite scan_short, Hrd in Hc by exact Hshort.
  cbn [fst snd] in Hc. destruct Hc as (Hc & _). rewrite Hc.
  split; reflexivity.
Qed.

End UrlsFileErrors.

(** C8 fails on the code: a URLs file that opens but cannot be read (a
    directory) stops the run with the reader's error, which does not wrap
    ErrProcessUrlsFile. *)
Theorem urls_file_read_error_not_wrapped :
  fst (cli.createTemplates
         (env := sampleEnv (oneFile "urls" (directory "urls")))
         (urlsFileConfig "urls") scan.zeroParamsCfg emptyWorld)
  = Some (PathError "read" "urls" EISDIR)
  /\ errors.Is (PathError "read" "urls" EISDIR) cli.ErrProcessUrlsFile = false
  /\ Error (PathError "read" "urls" EISDIR) = "read urls: is a directory"
  /\ cli.stored
       (snd (cli.createTemplates
               (env := sampleEnv (oneFile "urls" (directory "urls")))
               (urlsFileConfig "urls") scan.zeroParamsCfg emptyWorld))
     = [].
Proof. vm_compute. repeat split. Qed.

Example urls_file_missing_run :
  fst (cli.createTemplates (env := sampleEnv noFile)
         (urlsFileConfig "urls.txt") scan.zeroParamsCfg emptyWorld)
  = Some (wrapError
            "could not process url(s) file(urls.txt): no such file or directory"
            cli.ErrProcessUrlsFile).
Proof. vm_compute. reflexivity. Qed.

(** ** A parameter file with a long line *)

Lemma readParamsFile_paramsFileStarting (long : string) :
  hasByte bufio.newline long = false ->
  (bufio.MaxScanTokenSize <= len long)%Z ->
  bufio.rawLines (os.data (paramsFileStarting long)) = [long; "id"]
  /\ cli.readParamsFile
       (env := sampleEnv (oneFile "params.txt" (paramsFileStarting long)))
       "params.txt" emptyWorld
     = (Ok [],
        addLogs emptyWorld
          [(cli.Info, "Reading params file from: params.txt")]).
Proof.
  intros Hnl Hlen.
  assert (Hlines : bufio.rawLines (os.data (paramsFileStarting long))
                   = [long; "id"]).
  { unfold paramsFileStarting. cbn [os.data].
    rewrite rawLines_line by exact Hnl. reflexivity. }
  split; [exact Hlines|].
  apply (readParamsFile_truncated
           (env := sampleEnv (oneFile "params.txt" (paramsFileStarting long)))
           "params.txt" (os.data (paramsFileStarting long)) [] long ["id"]).
  - reflexivity.
  - exact Hlines.
  - constructor.
  - exact Hlen.
Qed.

(** C9 fails on the code: a parameter file whose first line has 64 KiB and
    whose second line is "id" gives the empty parameter list, and no
    error. *)
Theorem params_file_long_line_dropped :
  bufio.rawLines (os.data longLineParamsFile) = [longLine; "id"]
  /\ len longLine = 65536%Z
  /\ cli.readParamsFile
       (env := sampleEnv (oneFile "params.txt" longLineParamsFile))
       "params.txt" emptyWorld
     = (Ok [],
        addLogs emptyWorld
          [(cli.Info, "Reading params file from: params.txt")]).
Proof.
  destruct (readParamsFile_paramsFileStarting longLine longLine_no_newline
              longLine_too_long) as (H1 & H2).
  split; [exact H1|]. split; [exact len_longLine|exact H2].
Qed.

Example readParamsFile_blank_lines :
  fst (cli.readParamsFile
         (env := sampleEnv
                   (oneFile "params.txt"
                      (os.mkFile
                         ("id " ++ bytes [13; 10; 10] ++ "  q" ++ nl ++ "id")
                         None)))
         "params.txt" emptyWorld)
  = Ok ["id"; ""; "q"; "id"].
Proof. vm_compute. reflexivity. Qed.

(** * Further properties of the two files *)

(** ** Strings: reversal, prefixes, and trimming after the scanner *)

Lemma rev_string_append (acc s : string) :
  rev_string acc s = reverse s ++ acc.
Proof.
  unfold reverse. revert acc. induction s as [|c s IH]; intros acc.
  - reflexivity.
  - cbn [rev_string]. rewrite IH, (IH (String c "")).
    rewrite append_assoc. reflexivity.
Qed.

Lemma reverse_cons (c : ascii) (s : string) :
  reverse (String c s) = reverse s ++ String c "".
Proof. unfold reverse at 1. cbn [rev_string]. apply rev_string_append. Qed.

Lemma reverse_append (a b : string) :
  reverse (a ++ b) = reverse b ++ reverse a.
Proof.
  induction a as [|c a IH]; cbn [append].
  - now rewrite append_empty_r.
  - rewrite !reverse_cons, IH. apply append_assoc.
Qed.

Lemma reverse_involutive (s : string) : reverse (reverse s) = s.
Proof.
  induction s as [|c s IH]; [reflexivity|].
  rewrite reverse_cons, reverse_append, IH. reflexivity.
Qed.

Lemma length_append (a b : string) :
  String.length (a ++ b) = (String.length a + String.length b)%nat.
Proof. induction a as [|c a IH]; cbn; [|rewrite IH]; reflexivity. Qed.

(** A string that ends with a carriage return, and the others. *)
Lemma dropCR_cases (l : string) :
  (exists m, l = m ++ String bufio.carriageReturn "" /\ bufio.dropCR l = m)
  \/ bufio.dropCR l = l.
Proof.
  unfold bufio.dropCR. destruct (reverse l) as [|c r] eqn:E; [now right|].
  destruct (Ascii.eqb_spec c bufio.carriageReturn) as [->|_]; [|now right].
  left. exists (reverse r). split; [|reflexivity].
  rewrite <- (reverse_involutive l), E. apply reverse_cons.
Qed.

Lemma HasPrefix_append_CR (r m : string) :
  hasByte bufio.carriageReturn r = false ->
  strings.HasPrefix (m ++ String bufio.carriageReturn "") r
  = strings.HasPrefix m r.
Proof.
  revert m. induction r as [|a r IH]; intros m H.
  - destruct m; reflexivity.
  - cbn [hasByte] in H. apply orb_false_iff in H. destruct H as (Ha & Hr).
    destruct m as [|b m]; cbn [append strings.HasPrefix].
    + now rewrite Ha.
    + now rewrite IH.
Qed.

Lemma HasPrefix_nonempty_append_CR (r m : string) :
  m <> "" ->
  hasByte bufio.carriageReturn (drop 1 r) = false ->
  strings.HasPrefix (m ++ String bufio.carriageReturn "") r
  = strings.HasPrefix m r.
Proof.
  intros Hm Hr. destruct r as [|a r]; [destruct m; reflexivity|].
  destruct m as [|b m]; [congruence|].
  cbn [append strings.HasPrefix]. cbn [drop] in Hr.
  now rewrite HasPrefix_append_CR.
Qed.

Lemma HasPrefix_drop_append (r m x : string) :
  strings.HasPrefix m r = true ->
  drop (String.length r) (m ++ x) = drop (String.length r) m ++ x.
Proof.
  revert m. induction r as [|a r IH]; intros m H; [reflexivity|].
  destruct m as [|b m]; [discriminate|].
  cbn [strings.HasPrefix] in H. apply andb_true_iff in H.
  cbn [String.length append drop]. now apply IH.
Qed.

Lemma HasPrefix_drop_length (r m : string) :
  strings.HasPrefix m r = true ->
  (String.length (drop (String.length r) m) + String.length r
   = String.length m)%nat.
Proof.
  revert m. induction r as [|a r IH]; intros m H; [cbn; lia|].
  destruct m as [|b m]; [discriminate|].
  cbn [strings.HasPrefix] in H. apply andb_true_iff in H.
  cbn [String.length drop]. rewrite <- (IH m) by apply H. lia.
Qed.

Lemma spaceRunes_OK : runesOK strings.spaceRunes.
Proof. repeat constructor; discriminate. Qed.

Lemma stripRune_append_CR (rs : list string) (m : string) :
  runesOK rs -> m <> "" ->
  strings.stripRune rs (m ++ String bufio.carriageReturn "")
  = option_map (fun x => x ++ String bufio.carriageReturn "")
      (strings.stripRune rs m).
Proof.
  intros Hrs Hm. induction Hrs as [|r rs (Hr & Hcr) _ IH]; [reflexivity|].
  cbn [strings.stripRune].
  rewrite HasPrefix_nonempty_append_CR by assumption.
  destruct (strings.HasPrefix m r) eqn:E; [|exact IH].
  cbn [option_map]. now rewrite HasPrefix_drop_append.
Qed.

Lemma stripRune_shorter (rs : list string) (m m' : string) :
  runesOK rs -> strings.stripRune rs m = Some m' ->
  (String.length m' < String.length m)%nat.
Proof.
  intros Hrs. induction Hrs as [|r rs (Hr & _) _ IH]; [discriminate|].
  cbn [strings.stripRune]. destruct (strings.HasPrefix m r) eqn:E; [|exact IH].
  intros H. inversion H; subst m'.
  pose proof (HasPrefix_drop_length r m E).
  destruct r; [congruence|]. cbn [String.length] in *. lia.
Qed.

Lemma stripRune_empty (rs : list string) :
  runesOK rs -> strings.stripRune rs "" = None.
Proof.
  intros Hrs. induction Hrs as [|r rs (Hr & _) _ IH]; [reflexivity|].
  cbn [strings.stripRune]. destruct r; [congruence|exact IH].
Qed.

Lemma trimLeft_empty (fuel : nat) (rs : list string) :
  runesOK rs -> strings.trimLeft fuel rs "" = "".
Proof.
  intros Hrs. destruct fuel; [reflexivity|].
  cbn [strings.trimLeft]. now rewrite stripRune_empty.
Qed.

Lemma trimLeft_append_CR (fuel : nat) (m : string) :
  (String.length m <= fuel)%nat ->
  strings.trimLeft (S fuel) strings.spaceRunes
    (m ++ String bufio.carriageReturn "")
  = match strings.trimLeft fuel strings.spaceRunes m with
    | "" => ""
    | String c t => String c t ++ String bufio.carriageReturn ""
    end.
Proof.
  revert m. induction fuel as [|f IH]; intros m Hlen.
  - destruct m; [reflexivity|cbn in Hlen; lia].
  - destruct m as [|b m].
    + change ("" ++ String bufio.carriageReturn "")
        with (String bufio.carriageReturn "").
      rewrite (trimLeft_empty (S f) _ spaceRunes_OK). reflexivity.
    + cbn [strings.trimLeft].
      rewrite (stripRune_append_CR _ (String b m) spaceRunes_OK)
        by discriminate.
      destruct (strings.stripRune strings.spaceRunes (String b m))
        as [m'|] eqn:E; cbn [option_map]; [|reflexivity].
      pose proof (stripRune_shorter _ _ _ spaceRunes_OK E) as Hs.
      apply (IH m'). cbn [String.length] in *. lia.
Qed.

Lemma trimLeft_reversed_CR (fuel : nat) (x : string) :
  strings.trimLeft (S fuel) (map reverse strings.spaceRunes)
    (String bufio.carriageReturn x)
  = strings.trimLeft fuel (map reverse strings.spaceRunes) x.
Proof.
  cbn [strings.trimLeft].
  assert (E : strings.stripRune (map reverse strings.spaceRunes)
                (String bufio.carriageReturn x) = Some x).
  { cbn. destruct x; reflexivity. }
  now rewrite E.
Qed.

(** White space trimming makes no difference between a line and the line
    without its carriage return. *)
Lemma TrimSpace_append_CR (m : string) :
  strings.TrimSpace (m ++ String bufio.carriageReturn "")
  = strings.TrimSpace m.
Proof.
  unfold strings.TrimSpace. cbv zeta.
  rewrite length_append. cbn [String.length]. rewrite Nat.add_1_r.
  rewrite trimLeft_append_CR by lia.
  destruct (strings.trimLeft (String.length m) strings.spaceRunes m)
    as [|c t]; [reflexivity|].
  rewrite length_append. cbn [String.length]. rewrite Nat.add_1_r.
  rewrite reverse_append.
  change (reverse (String bufio.carriageReturn "") ++ reverse (String c t))
    with (String bufio.carriageReturn (reverse (String c t))).
  now rewrite trimLeft_reversed_CR.
Qed.

Lemma TrimSpace_dropCR (l : string) :
  strings.TrimSpace (bufio.dropCR l) = strings.TrimSpace l.
Proof.
  destruct (dropCR_cases l) as [(m & Hl & Hd)|Hd]; rewrite Hd;
    [|reflexivity].
  subst l. symmetry. apply TrimSpace_append_CR.
Qed.

(** ** The parameter file, line by line *)

Section ParamsFileLines.

Context {env : cli.Env}.
Import cli.

(** X1: for a parameter file that can be read and has no line of 64 KiB or
    more, [readParamsFile] returns one parameter per line of the file, in
    file order: the line, cut at its newline, with its white space trimmed
    (a carriage return before the newline is white space like any other);
    nothing is stored and one line is logged. *)
Theorem readParamsFile_trimmed_lines (pathToFile contents : string)
    (w : World) :
  os.ReadFile disk pathToFile = Ok contents ->
  Forall (fun l => (len l < bufio.MaxScanTokenSize)%Z)
    (bufio.rawLines contents) ->
  readParamsFile pathToFile w
  = (Ok (map strings.TrimSpace (bufio.rawLines contents)),
     addLogs w [(Info, "Reading params file from: " ++ pathToFile)])
  /\ (forall params, fst (readParamsFile pathToFile w) = Ok params ->
        List.length params = List.length (bufio.rawLines contents)).
Proof.
  intros Hread Hshort.
  assert (E : readParamsFile pathToFile w
              = (Ok (map strings.TrimSpace (bufio.rawLines contents)),
                 addLogs w
                   [(Info, "Reading params file from: " ++ pathToFile)])).
  { rewrite (readParamsFile_lines pathToFile contents w Hread Hshort).
    rewrite map_map. f_equal. f_equal. apply map_ext.
    intros l. apply TrimSpace_dropCR. }
  split; [exact E|]. rewrite E. cbn [fst]. intros params H.
  inversion H. now rewrite length_map.
Qed.

End ParamsFileLines.

Lemma readParamsFile_trimmed_lines_witness :
  fst (cli.readParamsFile
         (env := sampleEnv (oneFile "params.txt" crlfParamsFile))
         "params.txt" emptyWorld)
  = Ok ["id"; ""; "q"; "id"].
Proof.
  destruct (readParamsFile_trimmed_lines
              (env := sampleEnv (oneFile "params.txt" crlfParamsFile))
              "params.txt" (os.data crlfParamsFile) emptyWorld) as (H & _).
  - reflexivity.
  - vm_compute. repeat constructor.
  - rewrite H. reflexivity.
Defined.

(** ** Header overrides: the split at the first colon *)

Lemma Index_first_byte (k v : string) (c : ascii) :
  hasByte c k = false ->
  strings.Index (k ++ String c v) (String c "") = Some (String.length k).
Proof.
  induction k as [|x k IH]; intros H.
  - cbn. rewrite Ascii.eqb_refl. destruct v; reflexivity.
  - cbn [hasByte] in H. apply orb_false_iff in H. destruct H as (Hx & Hk).
    cbn [append strings.Index strings.HasPrefix String.length].
    rewrite Ascii.eqb_sym, Hx. cbn [andb]. now rewrite (IH Hk).
Qed.

Lemma take_append (k x : string) : take (String.length k) (k ++ x) = k.
Proof.
  induction k as [|c k IH]; cbn; [destruct x; reflexivity|now rewrite IH].
Qed.

Lemma drop_append (k x : string) : drop (String.length k) (k ++ x) = x.
Proof. induction k as [|c k IH]; cbn; [reflexivity|exact IH]. Qed.

Lemma SplitN_first_colon (k v : string) :
  hasByte ":"%char k = false ->
  strings.SplitN (k ++ String ":"%char v) ":" 2 = [k; v].
Proof.
  intros H. unfold strings.SplitN. cbn [strings.genSplit].
  rewrite (Index_first_byte k v ":"%char H). rewrite take_append.
  cbn [String.length]. rewrite Nat.add_1_r.
  change (S (String.length k)) with (String.length (String ":"%char k)).
  assert (E : forall a b c, drop (S (String.length a)) (a ++ String c b) = b).
  { induction a as [|y a IHa]; intros b c; cbn; [reflexivity|apply IHa]. }
  cbn [String.length]. now rewrite E.
Qed.

(** A string with a colon is a colon-free key, the colon, and the rest. *)
Lemma Contains_colon_split (h : string) :
  strings.Contains h ":" = true ->
  exists k v, h = k ++ String ":"%char v /\ hasByte ":"%char k = false.
Proof.
  rewrite Contains_colon_hasByte.
  induction h as [|c h IH]; [discriminate|].
  cbn [hasByte]. destruct (Ascii.eqb_spec c ":"%char) as [->|Hc].
  - intros _. exists "", h. split; reflexivity.
  - cbn [orb]. intros H. destruct (IH H) as (k & v & -> & Hk).
    exists (String c k), v. split; [reflexivity|].
    cbn [hasByte]. rewrite Hk.
    now rewrite (proj2 (Ascii.eqb_neq c ":"%char) Hc).
Qed.

(** X2: a header override is split at its first colon only.  For a key
    without colon, the header "key:value" gives the option with the trimmed
    key and the trimmed value, whatever colons the value has; and every
    header that has a colon is of that form, so that key, colon and value
    put together give the header back. *)
Theorem headerOptions_first_colon :
  (forall (k v : string) (options : list request.Option),
      hasByte ":"%char k = false ->
      cli.headerOptions [k ++ String ":"%char v] options
      = Ok (options
            ++ [request.WithHeader (strings.TrimSpace k)
                  (strings.TrimSpace v)])%list)
  /\ (forall (h : string) (options : list request.Option),
         strings.Contains h ":" = true ->
         exists k v,
           h = k ++ String ":"%char v
           /\ hasByte ":"%char k = false
           /\ strings.SplitN h ":" 2 = [k; v]
           /\ cli.headerOptions [h] options
              = Ok (options
                    ++ [request.WithHeader (strings.TrimSpace k)
                          (strings.TrimSpace v)])%list).
Proof.
  assert (G : forall (k v : string) (options : list request.Option),
             hasByte ":"%char k = false ->
             cli.headerOptions [k ++ String ":"%char v] options
             = Ok (options
                   ++ [request.WithHeader (strings.TrimSpace k)
                         (strings.TrimSpace v)])%list).
  { intros k v options Hk. cbn [cli.headerOptions].
    rewrite (SplitN_first_colon k v Hk). reflexivity. }
  split; [exact G|].
  intros h options Hh.
  destruct (Contains_colon_split h Hh) as (k & v & -> & Hk).
  exists k, v. split; [reflexivity|]. split; [exact Hk|].
  split; [now apply SplitN_first_colon|now apply G].
Qed.


Lemma headerOptions_first_colon_witness :
  cli.headerOptions ["Referer : http://a.example:8080/x "] []
  = Ok [request.WithHeader "Referer" "http://a.example:8080/x"].
Proof.
  destruct headerOptions_first_colon as (H & _).
  apply (H "Referer " " http://a.example:8080/x " []). reflexivity.
Defined.

(** ** The URLs file: what the update changes, and how it fails *)

Section UrlsFileUpdate.

Context {env : cli.Env}.
Import cli.




(** X4: when [os.Open] fails on the URLs file with a path error, the run
    driven by that file returns an error that wraps ErrProcessUrlsFile;
    its message is the marker's, the path of the URLs file in parentheses,
    and the text of the cause.  No template is stored, whatever the inline
    URLs are. *)
Theorem urls_file_open_failure_wrapped (cfg : Config)
    (pCfg : scan.ParamsCfg) (w : World) (err : error)
    (op path : string) (cause : error) :
  RequestsFile cfg = "" -> RawRequests cfg = [] -> UrlsFile cfg <> "" ->
  os.Open disk (UrlsFile cfg) = Err err ->
  AsPathError err = Some (op, path, cause) ->
  exists e,
    fst (createTemplates cfg pCfg w) = Some e
    /\ errors.Is e ErrProcessUrlsFile = true
    /\ Error e
       = "could not process url(s) file(" ++ UrlsFile cfg ++ "): "
         ++ Error cause
    /\ stored (snd (createTemplates cfg pCfg w)) = stored w.
Proof.
  intros H1 H2 H3 Hopen Has.
  destruct (createTemplates_cases cfg pCfg w) as (_ & _ & Hc & _).
  specialize (Hc H1 H2 H3). rewrite updateConfigWithURLS_eq, Hopen, Has in Hc.
  destruct Hc as (Hc & _).
  eexists. rewrite Hc. cbn [fst snd]. repeat split.
Qed.

(** X5: the URLs file and the inline configuration together.  When
    validation accepts again what it has accepted once, a URLs file that
    reads to its end (no line of 64 KiB or more) never makes the run fail,
    whatever its lines are: with valid inline URLs, well-formed headers
    and a store that accepts the templates, the run returns no error and
    stores the templates of the inline URLs followed by those of the
    surviving lines. *)
Theorem urls_file_run_succeeds (cfg : Config) (pCfg : scan.ParamsCfg)
    (w : World) (file : os.File) :
  RequestsFile cfg = "" -> RawRequests cfg = [] -> UrlsFile cfg <> "" ->
  os.Open disk (UrlsFile cfg) = Ok file ->
  os.rdErr file = None ->
  Forall (fun l => (len l < bufio.MaxScanTokenSize)%Z)
    (bufio.rawLines (os.data file)) ->
  (forall u, validURL u = true -> validURL (fst (url_Validate u)) = true) ->
  Forall (fun u => validURL u = true) (URLS cfg) ->
  Forall (fun h => strings.Contains h ":" = true) (Headers cfg) ->
  (forall h t, storeFails h t = None) ->
  let lines := map bufio.dropCR (bufio.rawLines (os.data file)) in
  fst (createTemplates cfg pCfg w) = None
  /\ stored (snd (createTemplates cfg pCfg w))
     = (stored w
        ++ templatesOfURLS (URLS cfg ++ survivors lines) (configOptions cfg)
             pCfg 0%Z)%list.
Proof.
  intros H1 H2 H3 Hopen Hrd Hshort Hidem Hvalid Hheaders Hstore lines.
  destruct (createTemplates_cases cfg pCfg w) as (_ & _ & Hc & _).
  specialize (Hc H1 H2 H3). rewrite updateConfigWithURLS_eq, Hopen in Hc.
  unfold bufio.ScanLines in Hc. rewrite scan_short, Hrd in Hc by exact Hshort.
  cbn [fst snd] in Hc. destruct Hc as (_ & Hc). rewrite Hc.
  rewrite createFromConfig_headers_ok by exact Hheaders.
  rewrite configURLSFrom_all; [split; reflexivity|exact Hstore|].
  cbn [URLS withURLS]. apply Forall_app. split; [exact Hvalid|].
  unfold survivors. apply Forall_forall. intros u Hin.
  apply in_map_iff in Hin. destruct Hin as (l & <- & Hl).
  apply filter_In in Hl. apply Hidem, Hl.
Qed.

End UrlsFileUpdate.

Lemma urls_file_open_failure_wrapped_witness :
  exists e,
    fst (cli.createTemplates (env := sampleEnv noFile)
           (urlsFileConfig "urls.txt") scan.zeroParamsCfg emptyWorld)
    = Some e
    /\ errors.Is e cli.ErrProcessUrlsFile = true
    /\ Error e
       = "could not process url(s) file(urls.txt): no such file or directory".
Proof.
  destruct (urls_file_open_failure_wrapped (env := sampleEnv noFile)
              (urlsFileConfig "urls.txt") scan.zeroParamsCfg emptyWorld
              (PathError "open" "urls.txt" ENOENT) "open" "urls.txt" ENOENT)
    as (e & H1 & H2 & H3 & _).
  - reflexivity.
  - reflexivity.
  - discriminate.
  - reflexivity.
  - reflexivity.
  - exists e. repeat split; assumption.
Defined.

Lemma urls_file_run_succeeds_witness :
  fst (cli.createTemplates
         (env := sampleEnv (oneFile "urls.txt" urlsFile))
         (urlsFileConfig "urls.txt") scan.zeroParamsCfg emptyWorld)
  = None
  /\ map scan.Request
       (cli.stored
          (snd (cli.createTemplates
                  (env := sampleEnv (oneFile "urls.txt" urlsFile))
                  (urlsFileConfig "urls.txt") scan.zeroParamsCfg
                  emptyWorld)))
     = [request.mkRequest "GET" "http://z.example" [] "";
        request.mkRequest "GET" "http://a.example" [] ""].
Proof.
  destruct (urls_file_run_succeeds
              (env := sampleEnv (oneFile "urls.txt" urlsFile))
              (urlsFileConfig "urls.txt") scan.zeroParamsCfg emptyWorld
              urlsFile) as (H1 & H2).
  - reflexivity.
  - reflexivity.
  - discriminate.
  - reflexivity.
  - reflexivity.
  - vm_compute. repeat constructor.
  - intros u Hu. unfold validURL in *. cbn [cli.url_Validate sampleEnv] in *.
    unfold sampleValidate in *.
    destruct (strings.HasPrefix u "http://" || strings.HasPrefix u "https://")
      eqn:E; cbn [fst snd] in *; [|discriminate].
    rewrite E. reflexivity.
  - repeat constructor.
  - constructor.
  - reflexivity.
  - split; [exact H1|]. rewrite H2. reflexivity.
Defined.

(** ** The captured-requests file *)

Section RequestsFile.

Context {env : cli.Env}.
Import cli.

(** The loop of [createFromRequestsFile] stores the templates in order up
    to the first one the store refuses. *)
Lemma storeFromRequestsFile_outcome (path : string)
    (templates : list scan.Template) (w : World) :
  exists k,
    (k <= List.length templates)%nat
    /\ snd (storeFromRequestsFile path templates w)
       = mkWorld (stored w ++ firstn k templates) (logged w)
    /\ (fst (storeFromRequestsFile path templates w) = None ->
        k = List.length templates)
    /\ (forall e, fst (storeFromRequestsFile path templates w) = Some e ->
        exists t e0,
          nth_error templates k = Some t
          /\ storeFails (stored w ++ firstn k templates) t = Some e0
          /\ e = Errorf ErrProcessRequestFile
                   ("(" ++ path ++ ") " ++ Error e0)).
Proof.
  revert w. induction templates as [|tpl tpls IH]; intros w.
  - exists O. cbn. rewrite app_nil_r. destruct w.
    repeat split; try reflexivity; try lia. discriminate.
  - cbn [storeFromRequestsFile]. unfold bind.
    destruct (StoreTemplate_cases tpl w) as [(e0 & Hf & E)|(_ & E)];
      rewrite E.
    + exists O. cbn [firstn fst snd nth_error]. rewrite app_nil_r.
      destruct w as [s l]. cbn [stored logged] in *.
      split; [lia|]. split; [reflexivity|]. split; [discriminate|].
      intros e He. inversion He. exists tpl, e0. repeat split. exact Hf.
    + destruct (IH (mkWorld (stored w ++ [tpl]) (logged w)))
        as (k & Hk & Hw & Hn & He).
      cbn [stored logged] in *. rewrite <- app_assoc in Hw, He.
      exists (S k). cbn [firstn nth_error List.length].
      split; [lia|]. split; [exact Hw|]. split.
      * intros H. now rewrite (Hn H).
      * exact He.
Qed.

(** X6: when the captured-requests file is read and parsed,
    [createFromRequestsFile] stores the parsed templates in order, up to
    the first one the store refuses: it returns no error exactly when it
    has stored them all, and otherwise the templates after the refused one
    are not stored.  It logs nothing. *)
Theorem createFromRequestsFile_stores_prefix (path : string)
    (pCfg : scan.ParamsCfg) (w : World) (file : string)
    (templates : list scan.Template) :
  os.ReadFile disk path = Ok file ->
  scan_TemplatesFromZipBytes pCfg file = Ok templates ->
  exists k,
    (k <= List.length templates)%nat
    /\ snd (createFromRequestsFile path pCfg w)
       = mkWorld (stored w ++ firstn k templates) (logged w)
    /\ (fst (createFromRequestsFile path pCfg w) = None <->
        k = List.length templates)
    /\ (forall e, fst (createFromRequestsFile path pCfg w) = Some e ->
        exists t e0,
          nth_error templates k = Some t
          /\ storeFails (stored w ++ firstn k templates) t = Some e0
          /\ e = Errorf ErrProcessRequestFile
                   ("(" ++ path ++ ") " ++ Error e0)).
Proof.
  intros Hread Hzip. unfold createFromRequestsFile. rewrite Hread, Hzip.
  destruct (storeFromRequestsFile_outcome path templates w)
    as (k & Hk & Hw & Hn & He).
  exists k. split; [exact Hk|]. split; [exact Hw|]. split; [|exact He].
  split; [exact Hn|]. intros ->.
  destruct (fst (storeFromRequestsFile path templates w)) as [e|] eqn:E;
    [|reflexivity].
  destruct (He e eq_refl) as (t & _ & Hnth & _).
  assert (Hsome : nth_error templates (List.length templates) <> None)
    by congruence.
  apply nth_error_Some in Hsome. lia.
Qed.

(** The errors of [createFromRequestsFile]. *)
Lemma createFromRequestsFile_error_form (path : string)
    (pCfg : scan.ParamsCfg) (w : World) :
  (forall err, os.ReadFile disk path = Err err ->
     createFromRequestsFile path pCfg w
     = (Some (wrapError
                ("could not process request(s) file(" ++ path ++ "): "
                 ++ Error err) ErrProcessRequestFile), w))
  /\ (forall file err,
        os.ReadFile disk path = Ok file ->
        scan_TemplatesFromZipBytes pCfg file = Err err ->
        createFromRequestsFile path pCfg w
        = (Some (wrapError
                   ("could not process request(s) file(" ++ path ++ "): "
                    ++ Error err) ErrProcessRequestFile), w))
  /\ (forall e, fst (createFromRequestsFile path pCfg w) = Some e ->
        errors.Is e ErrProcessRequestFile = true
        /\ exists rest,
             Error e
             = "could not process request(s) file(" ++ path ++ ")" ++ rest).
Proof.
  split; [|split].
  - intros err H. unfold createFromRequestsFile. now rewrite H.
  - intros file err H1 H2. unfold createFromRequestsFile.
    now rewrite H1, H2.
  - intros e. unfold createFromRequestsFile.
    destruct (os.ReadFile disk path) as [file|err].
    + destruct (scan_TemplatesFromZipBytes pCfg file) as [templates|err].
      * intros H.
        destruct (storeFromRequestsFile_outcome path templates w)
          as (k & _ & _ & _ & He).
        destruct (He e H) as (t & e0 & _ & _ & ->).
        split; [reflexivity|]. exists (" " ++ Error e0).
        reflexivity.
      * intros H. inversion H. split; [reflexivity|].
        exists (": " ++ Error err).
        reflexivity.
    + intros H. inversion H. split; [reflexivity|].
      exists (": " ++ Error err).
      reflexivity.
Qed.

(** X7: every error of [createFromRequestsFile] wraps
    ErrProcessRequestFile and has the path of the file, in parentheses,
    after the marker's message.  When the file cannot be read, or its
    contents cannot be parsed, the cause follows and the world is left as
    it was. *)
Theorem createFromRequestsFile_errors_wrapped (path : string)
    (pCfg : scan.ParamsCfg) (w : World) :
  (forall err, os.ReadFile disk path = Err err ->
     createFromRequestsFile path pCfg w
     = (Some (wrapError
                ("could not process request(s) file(" ++ path ++ "): "
                 ++ Error err) ErrProcessRequestFile), w))
  /\ (forall file err,
        os.ReadFile disk path = Ok file ->
        scan_TemplatesFromZipBytes pCfg file = Err err ->
        createFromRequestsFile path pCfg w
        = (Some (wrapError
                   ("could not process request(s) file(" ++ path ++ "): "
                    ++ Error err) ErrProcessRequestFile), w))
  /\ (forall e, fst (createFromRequestsFile path pCfg w) = Some e ->
        errors.Is e ErrProcessRequestFile = true
        /\ exists rest,
             Error e
             = "could not process request(s) file(" ++ path ++ ")" ++ rest).
Proof. exact (createFromRequestsFile_error_form path pCfg w). Qed.

End RequestsFile.

Lemma createFromRequestsFile_stores_prefix_witness :
  exists k,
    (k <= 3)%nat
    /\ snd (cli.createFromRequestsFile
              (env := bundleEnv (oneFile "requests.zip" bundleFile) 2)
              "requests.zip" scan.zeroParamsCfg emptyWorld)
       = cli.mkWorld ([] ++ firstn k sampleTemplates) []
    /\ (fst (cli.createFromRequestsFile
               (env := bundleEnv (oneFile "requests.zip" bundleFile) 2)
               "requests.zip" scan.zeroParamsCfg emptyWorld) = None <->
        k = 3%nat).
Proof.
  destruct (createFromRequestsFile_stores_prefix
              (env := bundleEnv (oneFile "requests.zip" bundleFile) 2)
              "requests.zip" scan.zeroParamsCfg emptyWorld "PK"
              sampleTemplates eq_refl eq_refl)
    as (k & Hk & Hw & Hn & _).
  exists k. split; [exact Hk|]. split; [exact Hw|exact Hn].
Defined.

Example createFromRequestsFile_full_store_run :
  cli.createFromRequestsFile
    (env := bundleEnv (oneFile "requests.zip" bundleFile) 2) "requests.zip"
    scan.zeroParamsCfg emptyWorld
  = (Some (wrapError
             "could not process request(s) file(requests.zip) disk full"
             cli.ErrProcessRequestFile),
     cli.mkWorld (firstn 2 sampleTemplates) []).
Proof. reflexivity. Qed.

Lemma createFromRequestsFile_errors_wrapped_witness :
  cli.createFromRequestsFile (env := sampleEnv noFile) "requests.zip"
    scan.zeroParamsCfg emptyWorld
  = (Some (wrapError
             "could not process request(s) file(requests.zip): open requests.zip: no such file or directory"
             cli.ErrProcessRequestFile), emptyWorld)
  /\ errors.Is
       (wrapError
          "could not process request(s) file(requests.zip): open requests.zip: no such file or directory"
          cli.ErrProcessRequestFile)
       cli.ErrProcessRequestFile = true.
Proof.
  destruct (createFromRequestsFile_errors_wrapped (env := sampleEnv noFile)
              "requests.zip" scan.zeroParamsCfg emptyWorld)
    as (H1 & _ & H3).
  pose proof (H1 (PathError "open" "requests.zip" ENOENT) eq_refl) as E.
  split; [exact E|].
  apply (H3 _ (f_equal fst E)).
Defined.

(** ** The raw-request files *)

Section RawRequestFiles.

Context {env : cli.Env}.
Import cli.

Lemma storeFromRawRequest_error (path : string)
    (templates : list scan.Template) (tplIdx : Z) (w : World) (e : error) :
  fst (fst (storeFromRawRequest path templates tplIdx w)) = Some e ->
  exists cause,
    e = Errorf ErrProcessRequestFile ("(" ++ path ++ "): " ++ cause).
Proof.
  revert tplIdx w. induction templates as [|tpl tpls IH]; intros tplIdx w.
  - discriminate.
  - cbn [storeFromRawRequest]. unfold bind.
    destruct (StoreTemplate tpl w) as [[e0|] w1].
    + cbn. intros H. inversion H. now exists (Error e0).
    + apply IH.
Qed.

Lemma storeFromRawRequest_logged (path : string)
    (templates : list scan.Template) (tplIdx : Z) (w : World) :
  logged (snd (storeFromRawRequest path templates tplIdx w)) = logged w.
Proof.
  revert tplIdx w. induction templates as [|tpl tpls IH]; intros tplIdx w.
  - reflexivity.
  - cbn [storeFromRawRequest]. unfold bind.
    destruct (StoreTemplate_cases tpl w) as [(e0 & _ & E)|(_ & E)];
      rewrite E; [reflexivity|].
    now rewrite IH.
Qed.

(** The errors of [createFromRawRequestFiles]. *)
Lemma createFromRawRequestFiles_error_form (paths : MultiValue)
    (pCfg : scan.ParamsCfg) (w : World) (e : error) :
  fst (createFromRawRequestFiles paths pCfg w) = Some e ->
  errors.Is e ErrProcessRequestFile = true
  /\ exists path cause,
       In path paths
       /\ e = wrapError
                ("could not process request(s) file(" ++ path ++ "): "
                 ++ cause) ErrProcessRequestFile.
Proof.
  unfold createFromRawRequestFiles. generalize 0%Z as tplIdx.
  revert w. induction paths as [|path paths IH]; intros w tplIdx.
  - discriminate.
  - cbn [rawRequestFilesFrom].
    destruct (os.ReadFile disk path) as [raw|err].
    + destruct (TemplateFromRawBytes tplIdx pCfg raw) as [templates|err].
      * unfold bind.
        pose proof (storeFromRawRequest_error path templates tplIdx w) as He.
        destruct (storeFromRawRequest path templates tplIdx w)
          as [[[e0|] tplIdx'] w1]; cbn [fst snd] in *.
        -- intros H. inversion H; subst e0.
           destruct (He e eq_refl) as (cause & ->).
           split; [reflexivity|]. exists path, cause.
           split; [now left|reflexivity].
        -- intros H. destruct (IH w1 tplIdx' H) as (HIs & p & c & Hin & ->).
           split; [exact HIs|]. exists p, c. split; [now right|reflexivity].
      * intros H. inversion H. split; [reflexivity|].
        exists path, (Error err). split; [now left|reflexivity].
    + intros H. inversion H. split; [reflexivity|].
      exists path, (Error err). split; [now left|reflexivity].
Qed.

(** X8: every error of [createFromRawRequestFiles] wraps
    ErrProcessRequestFile and names one of the configured paths: its
    message is the marker's, that path in parentheses, and the cause. *)
Theorem createFromRawRequestFiles_errors_wrapped (paths : MultiValue)
    (pCfg : scan.ParamsCfg) (w : World) (e : error) :
  fst (createFromRawRequestFiles paths pCfg w) = Some e ->
  errors.Is e ErrProcessRequestFile = true
  /\ exists path cause,
       In path paths
       /\ e = wrapError
                ("could not process request(s) file(" ++ path ++ "): "
                 ++ cause) ErrProcessRequestFile.
Proof. exact (createFromRawRequestFiles_error_form paths pCfg w e). Qed.

(** The run over a list of files is the run over its first files, then,
    unless that failed, the run over the others with the counter advanced
    by the number of templates stored so far. *)
Lemma rawRequestFilesFrom_app (first others : MultiValue)
    (pCfg : scan.ParamsCfg) (tplIdx : Z) (w : World) :
  rawRequestFilesFrom (first ++ others) pCfg tplIdx w
  = match rawRequestFilesFrom first pCfg tplIdx w with
    | (Some e, w1) => (Some e, w1)
    | (None, w1) =>
        rawRequestFilesFrom others pCfg
          (advance tplIdx
             (List.length (stored w1) - List.length (stored w)))
          w1
    end.
Proof.
  revert tplIdx w. induction first as [|path first IH]; intros tplIdx w.
  - cbn [app rawRequestFilesFrom ret]. now rewrite Nat.sub_diag.
  - cbn [app rawRequestFilesFrom].
    destruct (os.ReadFile disk path) as [raw|err]; [|reflexivity].
    destruct (TemplateFromRawBytes tplIdx pCfg raw) as [templates|err];
      [|reflexivity].
    unfold bind.
    destruct (storeFromRawRequest_prefix path templates tplIdx w)
      as (k & _ & Hs & Hn).
    destruct (storeFromRawRequest path templates tplIdx w)
      as [[[e0|] tplIdx'] w1]; [reflexivity|].
    cbn [fst snd] in Hs, Hn. destruct (Hn eq_refl) as (-> & ->).
    rewrite IH.
    destruct (rawRequestFilesFrom_indices first pCfg
                (advance tplIdx (List.length templates)) w1)
      as (new & Hnew & _).
    destruct (rawRequestFilesFrom first pCfg
                (advance tplIdx (List.length templates)) w1)
      as [[e|] w2]; [reflexivity|].
    cbn [snd] in Hnew. rewrite <- advance_add. f_equal. f_equal.
    rewrite Hnew, Hs, firstn_all, !length_app. lia.
Qed.

(** X9: [createFromRawRequestFiles] works through the files in order and
    stops at the first failure.  Its run over a list of paths is its run
    over the first of them followed, unless that failed, by the run over
    the others with the counter advanced by the number of templates stored
    meanwhile; and at a file that cannot be read it returns the wrapped
    error of that file, leaving what the files before have stored and not
    looking at the files after. *)
Theorem createFromRawRequestFiles_in_order (first others : MultiValue)
    (pCfg : scan.ParamsCfg) (w : World) :
  createFromRawRequestFiles (first ++ others) pCfg w
  = match createFromRawRequestFiles first pCfg w with
    | (Some e, w1) => (Some e, w1)
    | (None, w1) =>
        rawRequestFilesFrom others pCfg
          (advance 0%Z (List.length (stored w1) - List.length (stored w)))
          w1
    end
  /\ (forall bad rest err,
        others = bad :: rest ->
        os.ReadFile disk bad = Err err ->
        createFromRawRequestFiles (first ++ others) pCfg w
        = match createFromRawRequestFiles first pCfg w with
          | (Some e, w1) => (Some e, w1)
          | (None, w1) =>
              (Some (wrapError
                       ("could not process request(s) file(" ++ bad ++ "): "
                        ++ Error err) ErrProcessRequestFile), w1)
          end).
Proof.
  unfold createFromRawRequestFiles. split.
  - apply rawRequestFilesFrom_app.
  - intros bad rest err -> Hread. rewrite rawRequestFilesFrom_app.
    destruct (rawRequestFilesFrom first pCfg 0%Z w) as [[e|] w1];
      [reflexivity|].
    cbn [rawRequestFilesFrom]. now rewrite Hread.
Qed.

End RawRequestFiles.

Lemma createFromRawRequestFiles_errors_wrapped_witness :
  errors.Is
    (wrapError
       "could not process request(s) file(missing.txt): open missing.txt: no such file or directory"
       cli.ErrProcessRequestFile)
    cli.ErrProcessRequestFile = true
  /\ exists path cause,
       In path rawPathsWithMissing
       /\ wrapError
            "could not process request(s) file(missing.txt): open missing.txt: no such file or directory"
            cli.ErrProcessRequestFile
          = wrapError
              ("could not process request(s) file(" ++ path ++ "): "
               ++ cause) cli.ErrProcessRequestFile.
Proof.
  apply (createFromRawRequestFiles_errors_wrapped (env := sampleEnv rawDisk)
           rawPathsWithMissing sampleParamsCfg emptyWorld).
  reflexivity.
Defined.

Lemma createFromRawRequestFiles_in_order_witness :
  cli.createFromRawRequestFiles (env := sampleEnv rawDisk)
    rawPathsWithMissing sampleParamsCfg emptyWorld
  = (Some (wrapError
             "could not process request(s) file(missing.txt): open missing.txt: no such file or directory"
             cli.ErrProcessRequestFile),
     snd (cli.createFromRawRequestFiles (env := sampleEnv rawDisk)
            ["first.txt"] sampleParamsCfg emptyWorld)).
Proof.
  destruct (createFromRawRequestFiles_in_order (env := sampleEnv rawDisk)
              ["first.txt"] ["missing.txt"; "second.txt"] sampleParamsCfg
              emptyWorld) as (_ & H).
  exact (H "missing.txt" ["second.txt"]
           (PathError "open" "missing.txt" ENOENT) eq_refl eq_refl).
Defined.

(** ** The inline configuration: the errors it can return *)

Section ConfigErrors.

Context {env : cli.Env}.
Import cli.

Lemma storeFromConfig_error (cfgURL : string)
    (templates : list scan.Template) (tplIdx : Z) (w : World) (e : error) :
  fst (fst (storeFromConfig cfgURL templates tplIdx w)) = Some e ->
  exists h t e0,
    storeFails h t = Some e0
    /\ e = Errorf ErrProcessRequestFile ("(" ++ cfgURL ++ "): " ++ Error e0).
Proof.
  revert tplIdx w. induction templates as [|tpl tpls IH]; intros tplIdx w.
  - discriminate.
  - cbn [storeFromConfig]. unfold bind.
    destruct (StoreTemplate_cases tpl w) as [(e0 & Hf & E)|(_ & E)];
      rewrite E.
    + cbn. intros H. inversion H. exists (stored w), tpl, e0.
      split; [exact Hf|reflexivity].
    + apply IH.
Qed.

Lemma configURLSFrom_error (urls : MultiValue)
    (options : list request.Option) (pCfg : scan.ParamsCfg) (tplIdx : Z)
    (w : World) (e : error) :
  fst (configURLSFrom urls options pCfg tplIdx w) = Some e ->
  (exists u, In u urls /\ snd (url_Validate u) = Some e)
  \/ (exists u h t e0,
         In u urls
         /\ snd (url_Validate u) = None
         /\ storeFails h t = Some e0
         /\ e = Errorf ErrProcessRequestFile
                  ("(" ++ fst (url_Validate u) ++ "): " ++ Error e0)).
Proof.
  revert tplIdx w. induction urls as [|u urls IH]; intros tplIdx w.
  - discriminate.
  - cbn [configURLSFrom].
    destruct (url_Validate u) as [u' [e1|]] eqn:Ev.
    + cbn. intros H. inversion H; subst e1. left. exists u.
      split; [now left|]. now rewrite Ev.
    + unfold bind.
      pose proof (storeFromConfig_error u'
                    (Alter pCfg
                       (scan.NewTemplate tplIdx
                          (request_WithOptions u' options) None))
                    tplIdx w) as Hs.
      destruct (storeFromConfig u' _ tplIdx w) as [[[e1|] tplIdx'] w1];
        cbn [fst snd] in *.
      * intros H. inversion H; subst e1.
        destruct (Hs e eq_refl) as (h & t & e0 & Hf & ->).
        right. exists u, h, t, e0. rewrite Ev. cbn [fst snd].
        split; [now left|]. repeat split. exact Hf.
      * intros H. destruct (IH tplIdx' w1 H)
          as [(u0 & Hin & Hv)|(u0 & h & t & e0 & Hin & Hv & Hf & He)].
        -- left. exists u0. split; [now right|exact Hv].
        -- right. exists u0, h, t, e0. split; [now right|].
           repeat split; assumption.
Qed.

(** X10: an error of the inline-config path is of one of three kinds: the
    invalid-header error for a configured header without colon; the error
    of URL validation for one of the configured URLs, returned as it is;
    or, for a URL that validation accepts, an error of the store wrapped
    in ErrProcessRequestFile with that URL in parentheses. *)
Theorem createFromConfig_error_kinds (cfg : Config) (pCfg : scan.ParamsCfg)
    (w : World) (e : error) :
  fst (createFromConfig cfg pCfg w) = Some e ->
  (exists h, In h (Headers cfg) /\ strings.Contains h ":" = false
             /\ e = wrapError ("invalid header: " ++ h) ErrInvalidHeader)
  \/ (exists u, In u (URLS cfg) /\ snd (url_Validate u) = Some e)
  \/ (exists u h t e0,
         In u (URLS cfg)
         /\ snd (url_Validate u) = None
         /\ storeFails h t = Some e0
         /\ e = wrapError
                  ("could not process request(s) file("
                   ++ fst (url_Validate u) ++ "): " ++ Error e0)
                  ErrProcessRequestFile).
Proof.
  rewrite createFromConfig_eq.
  destruct (forallb (fun h => strings.Contains h ":") (Headers cfg)) eqn:Hall.
  - assert (Hok : Forall (fun h => strings.Contains h ":" = true)
                    (Headers cfg)).
    { apply Forall_forall. intros h Hin.
      now apply (proj1 (forallb_forall _ _) Hall). }
    rewrite headerOptions_ok by exact Hok. intros H. right.
    exact (configURLSFrom_error _ _ _ _ _ _ H).
  - assert (Hbad : Exists (fun h => strings.Contains h ":" = false)
                     (Headers cfg)).
    { apply Exists_exists.
      induction (Headers cfg) as [|h hs IH]; [discriminate|].
      cbn [forallb] in Hall. apply andb_false_iff in Hall.
      destruct Hall as [Hh|Hhs].
      - exists h. split; [now left|exact Hh].
      - destruct (IH Hhs) as (h' & Hin & Hh').
        exists h'. split; [now right|exact Hh']. }
    destruct (headerOptions_invalid (Headers cfg) (baseOptions cfg) Hbad)
      as (h & Hin & Hc & Heq).
    rewrite Heq. cbn [fst]. intros H. inversion H. left. exists h.
    split; [exact Hin|]. split; [exact Hc|reflexivity].
Qed.

(** X11: a configuration with no source file, no URL and well-formed
    headers prepares nothing: [PrepareTemplates] returns no error and the
    store is left as it was, whatever method and data are configured. *)
Theorem PrepareTemplates_nothing_configured (cfg : Config) (w : World) :
  ParamsFile cfg = "" -> RequestsFile cfg = "" -> RawRequests cfg = [] ->
  UrlsFile cfg = "" -> URLS cfg = [] ->
  Forall (fun h => strings.Contains h ":" = true) (Headers cfg) ->
  fst (PrepareTemplates cfg w) = None
  /\ stored (snd (PrepareTemplates cfg w)) = stored w.
Proof.
  intros Hp Hr Hraw Hu Hurls Hh.
  unfold PrepareTemplates. rewrite (proj2 (len_zero_iff _) Hp).
  destruct (createTemplates_cases cfg scan.zeroParamsCfg w)
    as (_ & _ & _ & Hc).
  rewrite (Hc Hr Hraw Hu), createFromConfig_headers_ok by exact Hh.
  rewrite Hurls. split; reflexivity.
Qed.

End ConfigErrors.

Lemma createFromConfig_error_kinds_witness :
  exists u,
    In u (cli.URLS invalidURLConfig)
    /\ snd (sampleValidate u) = Some (errors.New "invalid url").
Proof.
  destruct (createFromConfig_error_kinds (env := sampleEnv noFile)
              invalidURLConfig scan.zeroParamsCfg emptyWorld
              (errors.New "invalid url") eq_refl)
    as [(h & [] & _)|[H|(u & h & t & e0 & _ & _ & Hf & _)]].
  - exact H.
  - discriminate Hf.
Defined.

Lemma PrepareTemplates_nothing_configured_witness :
  fst (cli.PrepareTemplates (env := sampleEnv noFile)
         (cli.mkConfig "" 0%Z "" "" "" [] "" "POST" ["a=1"; "b=2"]
            ["Accept: */*"] [] "out") emptyWorld)
  = None
  /\ cli.stored
       (snd (cli.PrepareTemplates (env := sampleEnv noFile)
               (cli.mkConfig "" 0%Z "" "" "" [] "" "POST" ["a=1"; "b=2"]
                  ["Accept: */*"] [] "out") emptyWorld))
     = [].
Proof.
  apply (PrepareTemplates_nothing_configured (env := sampleEnv noFile)
           (cli.mkConfig "" 0%Z "" "" "" [] "" "POST" ["a=1"; "b=2"]
              ["Accept: */*"] [] "out") emptyWorld);
    try reflexivity.
  repeat constructor.
Defined.

(** ** Query extraction over parts of the finder's result *)

Lemma matchingPayloads_app (ipt : profile.InsertionPointType)
    (es1 es2 : list entrypoint.Entrypoint) :
  matchingPayloads ipt (es1 ++ es2)
  = (matchingPayloads ipt es1 ++ matchingPayloads ipt es2)%list.
Proof. unfold matchingPayloads. apply flat_map_app. Qed.

Lemma concatBytes_app (a b : list string) :
  concatBytes (a ++ b) = concatBytes a ++ concatBytes b.
Proof.
  induction a as [|x a IH]; [reflexivity|].
  cbn [app concatBytes fold_right]. fold (concatBytes (a ++ b)).
  fold (concatBytes a). rewrite IH. now rewrite append_assoc.
Qed.

(** X12: the buffer [reqQueryBytes] returns is built part by part: when
    the finder's result is one list of entrypoints followed by another,
    the buffer is the buffer of the first followed by the buffer of the
    second; and entrypoints that are no query entrypoints of the wanted
    sub-kind add nothing, wherever they stand. *)
Theorem reqQueryBytes_by_parts (F F1 F2 : entrypoint.Finder)
    (req : request.Request) (ipt : profile.InsertionPointType) :
  entrypoint.Find (Finder := F) req
  = (entrypoint.Find (Finder := F1) req
     ++ entrypoint.Find (Finder := F2) req)%list ->
  Match.reqQueryBytes F req ipt
  = Match.reqQueryBytes F1 req ipt ++ Match.reqQueryBytes F2 req ipt
  /\ (matchingPayloads ipt (entrypoint.Find (Finder := F2) req) = [] ->
      Match.reqQueryBytes F req ipt = Match.reqQueryBytes F1 req ipt)
  /\ (matchingPayloads ipt (entrypoint.Find (Finder := F1) req) = [] ->
      Match.reqQueryBytes F req ipt = Match.reqQueryBytes F2 req ipt).
Proof.
  intros H. unfold Match.reqQueryBytes.
  rewrite !appendMatching_concat, H, matchingPayloads_app, concatBytes_app.
  cbn [append]. split; [reflexivity|]. split; intros E; rewrite E.
  - cbn [concatBytes fold_right]. now rewrite append_empty_r.
  - reflexivity.
Qed.

Lemma reqQueryBytes_by_parts_witness :
  Match.reqQueryBytes (constFinder [nameA; value1; otherB; nameA])
    sampleRequest profile.ParamURLName
  = Match.reqQueryBytes (constFinder [nameA; value1]) sampleRequest
      profile.ParamURLName
    ++ Match.reqQueryBytes (constFinder [otherB; nameA]) sampleRequest
         profile.ParamURLName.
Proof.
  destruct (reqQueryBytes_by_parts
              (constFinder [nameA; value1; otherB; nameA])
              (constFinder [nameA; value1]) (constFinder [otherB; nameA])
              sampleRequest profile.ParamURLName eq_refl) as (H & _).
  exact H.
Defined.

(** ** The inline configuration: URLs in order *)

Section ConfigInOrder.

Context {env : cli.Env}.
Import cli.

Lemma configURLSFrom_app (first others : MultiValue)
    (options : list request.Option) (pCfg : scan.ParamsCfg) (tplIdx : Z)
    (w : World) :
  configURLSFrom (first ++ others) options pCfg tplIdx w
  = match configURLSFrom first options pCfg tplIdx w with
    | (Some e, w1) => (Some e, w1)
    | (None, w1) =>
        configURLSFrom others options pCfg
          (advance tplIdx
             (List.length (stored w1) - List.length (stored w)))
          w1
    end.
Proof.
  revert tplIdx w. induction first as [|u first IH]; intros tplIdx w.
  - cbn [app configURLSFrom ret]. now rewrite Nat.sub_diag.
  - cbn [app configURLSFrom].
    destruct (url_Validate u) as [u' [e1|]]; [reflexivity|].
    unfold bind.
    set (templates :=
           Alter pCfg
             (scan.NewTemplate tplIdx (request_WithOptions u' options) None)).
    destruct (storeFromConfig_prefix u' templates tplIdx w)
      as (k & _ & Hs & Hn).
    destruct (storeFromConfig u' templates tplIdx w)
      as [[[e0|] tplIdx'] w1]; [reflexivity|].
    cbn [fst snd] in Hs, Hn. destruct (Hn eq_refl) as (-> & ->).
    rewrite IH.
    destruct (configURLSFrom_extends first options pCfg
                (advance tplIdx (List.length templates)) w1)
      as (new & Hnew).
    destruct (configURLSFrom first options pCfg
                (advance tplIdx (List.length templates)) w1)
      as [[e|] w2]; [reflexivity|].
    cbn [snd] in Hnew. rewrite <- advance_add. f_equal. f_equal.
    rewrite Hnew, Hs, firstn_all, !length_app. lia.
Qed.

(** X13: with well-formed headers the inline-config path works through the
    URLs in order and stops at the first failure: its run over a URL list
    is its run over the first URLs of the list followed, unless that
    failed, by the loop over the other URLs, with the same options and
    the counter advanced by the number of templates stored meanwhile. *)
Theorem createFromConfig_in_order (cfg : Config) (pCfg : scan.ParamsCfg)
    (w : World) (first others : MultiValue) :
  Forall (fun h => strings.Contains h ":" = true) (Headers cfg) ->
  URLS cfg = (first ++ others)%list ->
  createFromConfig cfg pCfg w
  = match createFromConfig (withURLS cfg first) pCfg w with
    | (Some e, w1) => (Some e, w1)
    | (None, w1) =>
        configURLSFrom others (configOptions cfg) pCfg
          (advance 0%Z (List.length (stored w1) - List.length (stored w)))
          w1
    end.
Proof.
  intros Hh Hurls. rewrite !createFromConfig_headers_ok by exact Hh.
  rewrite Hurls, configURLSFrom_app. reflexivity.
Qed.

Lemma PrepareTemplates_as_createTemplates (cfg : Config) (w : World) :
  exists pCfg w',
    PrepareTemplates cfg w = createTemplates cfg pCfg w'
    /\ stored w' = stored w.
Proof.
  unfold PrepareTemplates.
  destruct (0 <? len (ParamsFile cfg))%Z;
    [|exists scan.zeroParamsCfg, w; split; reflexivity].
  unfold bind, readParamsFile, bind, log, ret.
  destruct (os.ReadFile disk (ParamsFile cfg)) as [contents|err].
  - destruct (bufio.ScanLines contents None) as [tokens scanErr].
    eexists _, _. split; reflexivity.
  - eexists _, _. split; reflexivity.
Qed.

(** X14: when request files drive the run (a captured-requests file, or
    raw-request files), every error [PrepareTemplates] returns wraps
    ErrProcessRequestFile, whatever the parameter file and the other
    settings are. *)
Theorem PrepareTemplates_request_errors_wrapped (cfg : Config) (w : World)
    (e : error) :
  RequestsFile cfg <> "" \/ RawRequests cfg <> [] ->
  fst (PrepareTemplates cfg w) = Some e ->
  errors.Is e ErrProcessRequestFile = true.
Proof.
  intros Hsrc.
  destruct (PrepareTemplates_as_createTemplates cfg w)
    as (pCfg & w' & -> & _).
  destruct (createTemplates_cases cfg pCfg w') as (Hb & Hr & _).
  destruct (string_dec (RequestsFile cfg) "") as [Hempty|Hset].
  - destruct Hsrc as [Hsrc|Hsrc]; [congruence|].
    rewrite (Hr Hempty Hsrc). intros H.
    now destruct (createFromRawRequestFiles_error_form _ _ _ _ H).
  - rewrite (Hb Hset). intros H.
    destruct (createFromRequestsFile_error_form (RequestsFile cfg) pCfg
                (addLogs
                   (addLogs w' [(Info, "Preparing templates for scan")])
                   [(Info, "Scan templates from requests file: "
                           ++ RequestsFile cfg)]))
      as (_ & _ & H3).
    now destruct (H3 e H).
Qed.

End ConfigInOrder.

Lemma createFromConfig_in_order_witness :
  cli.createFromConfig (env := sampleEnv noFile) invalidURLConfig
    sampleParamsCfg emptyWorld
  = (Some (errors.New "invalid url"),
     addLogs
       (snd (cli.createFromConfig (env := sampleEnv noFile)
               (inlineConfig ["http://a.example"]) sampleParamsCfg
               emptyWorld))
       [(cli.Error_,
         "Error while validating url (ftp://b.example): invalid url")]).
Proof.
  exact (createFromConfig_in_order (env := sampleEnv noFile)
           invalidURLConfig sampleParamsCfg emptyWorld ["http://a.example"]
           ["ftp://b.example"; "http://c.example"] (Forall_nil _) eq_refl).
Defined.

Lemma PrepareTemplates_request_errors_wrapped_witness :
  errors.Is
    (wrapError
       "could not process request(s) file(requests.zip): open requests.zip: no such file or directory"
       cli.ErrProcessRequestFile)
    cli.ErrProcessRequestFile = true.
Proof.
  apply (PrepareTemplates_request_errors_wrapped (env := sampleEnv rawDisk)
           everySourceConfig emptyWorld).
  - left. discriminate.
  - reflexivity.
Defined.
